(** * katdal: chunk stores, data sources and the version 3 HDF5 accessor

    A shallow embedding of [katdal/chunkstore_dict.py],
    [katdal/datasources.py] and the weight, flag, sensor, scan, dump and
    correlation product handling of [katdal/h5datav3.py], followed by the
    properties the specification states about them and by further
    properties of the code.

    Python objects that are mutated in place (the NumPy arrays held by a
    [DictChunkStore]) live in an explicit heap; a view returned by [get]
    points into that heap, so that the assignment [view[:] = chunk] made by
    [put] is seen through every name that refers to the same array. *)

From Stdlib Require Import ZArith Lia Ascii.
From stdpp Require Import gmap strings list functions pretty.

Open Scope Z_scope.
Open Scope nat_scope.

(** ** Python values shared by the modules *)

(** A NumPy dtype is identified by its canonical name ("float32",
    "complex64", ...), which is also what [str(dtype)] prints. *)
Record dtype : Type := Dtype { dtype_name : string }.

#[global] Instance dtype_eq_dec : EqDecision dtype.
Proof. solve_decision. Defined.

Definition float32 : dtype := Dtype "float32".
Definition uint8 : dtype := Dtype "uint8".
Definition complex64 : dtype := Dtype "complex64".

(** The scalars stored in arrays are kept abstract: [astype d x] is the
    conversion NumPy makes of the scalar [x] to dtype [d], and [one d] is
    the value [np.ones] fills an array of dtype [d] with. *)
Class Scalars : Type := {
  elem : Type;
  astype : dtype → elem → elem;
  one : dtype → elem;
  (** the dtype of the product of two arrays (NumPy's type promotion) *)
  result_type : dtype → dtype → dtype
}.

(** A Python [slice(start, stop, step)] with integer bounds; [step] is
    [None] when it is left out. *)
Record slice : Type := Slice { start : Z; stop : Z; step : option Z }.

#[global] Instance slice_eq_dec : EqDecision slice.
Proof. solve_decision. Defined.

(** [start:stop] *)
Definition range (lo hi : Z) : slice := Slice lo hi None.

(** A chunk is identified by the name of its array and one index range per
    dimension. *)
Definition chunk_id : Type := string * list slice.

(** The exceptions of the modelled code.  [ChunkNotFound] and [BadChunk] are
    the two errors of the chunk store; the others are Python's built-in
    ones. *)
Inductive builtin_error : Type := KeyError | IndexError | ValueError.

Inductive chunk_error : Type := ChunkNotFound | BadChunk.

Inductive exception : Type :=
| StoreError (kind : chunk_error) (msg : string)
| Builtin (e : builtin_error) (msg : string).

#[global] Instance builtin_error_eq_dec : EqDecision builtin_error.
Proof. solve_decision. Defined.
#[global] Instance chunk_error_eq_dec : EqDecision chunk_error.
Proof. solve_decision. Defined.
#[global] Instance exception_eq_dec : EqDecision exception.
Proof. solve_decision. Defined.

(** Text produced by Python's own formatting and by libraries, and by the
    parts of [katdal/chunkstore.py] whose wording the sources at hand do not
    fix. *)
Class Wording : Type := {
  (** [repr] of a [str], as printed by [{!r}] and [%r] *)
  py_repr : string → string;
  (** [str] of a list of [str], as printed by [%s] *)
  py_str_list : list string → string;
  (** [str] of a shape tuple, as printed by [%s] *)
  py_str_shape : list nat → string;
  (** [repr] of the identity of a chunk *)
  repr_chunk : chunk_id → string;
  (** text of an exception raised inside NumPy *)
  numpy_text : builtin_error → string;
  (** text of a [BadChunk] raised while a request is validated *)
  metadata_text : chunk_id → string;
  (** text of the error that a backend exception is translated into *)
  standard_text : chunk_id → exception → string;
  (** text of the error of a sensor lookup that found none of the names *)
  lookup_text : string → list string → string
}.

(** The outcome of a call: a value, or a raised exception. *)
Inductive result (A : Type) : Type :=
| Ok (a : A)
| Raise (e : exception).
Arguments Ok {A} a.
Arguments Raise {A} e.

#[global] Instance result_ret : MRet result := λ A a, Ok a.
#[global] Instance result_bind : MBind result := λ A B k r,
  match r with
  | Ok a => k a
  | Raise e => Raise e
  end.

(** [fails_with k r]: the call raised the chunk store error [k]. *)
Definition fails_with {A} (k : chunk_error) (r : result A) : Prop :=
  match r with
  | Raise (StoreError k' _) => k' = k
  | _ => False
  end.


(** ** NumPy arrays *)

Module Numpy.
Section Arrays.
Context `{Scalars}.

(** An array in C order: [data] lists the elements with the last index
    running fastest. *)
Record ndarray : Type := Ndarray {
  dtype_of : dtype;
  shape : list nat;
  data : list elem
}.

(** [np.prod(shape)]: the number of elements. *)
Definition size (s : list nat) : nat := foldr Nat.mul 1 s.

(** Every array NumPy builds holds exactly [size shape] elements. *)
Definition well_formed (a : ndarray) : Prop := length (data a) = size (shape a).

(** The [n] sub-blocks of [bs] elements along the first axis. *)
Definition rows (n bs : nat) (d : list elem) : list (list elem) :=
  reshape (replicate n bs) d.

(** Where an index of a slice lands on an axis of length [n]: negative
    indices count from the end, and the result is clipped to the axis. *)
Definition clip (n : nat) (i : Z) : nat :=
  Z.to_nat (if (i <? 0)%Z then Z.max (i + Z.of_nat n) 0 else Z.min i (Z.of_nat n)).

(** The window [(first, count)] a unit-step slice selects on an axis of
    length [n]. *)
Definition axis_window (n : nat) (s : slice) : nat * nat :=
  (clip n (start s), clip n (stop s) - clip n (start s)).

(** The windows selected by [a[slices]] on an array of the given shape:
    axes without a slice are taken whole, and more slices than axes is
    NumPy's "too many indices" [IndexError] ([None] here). *)
Fixpoint windows (sh : list nat) (sl : list slice) : option (list (nat * nat)) :=
  match sh, sl with
  | sh, [] => Some ((λ n, (0, n)) <$> sh)
  | [], _ :: _ => None
  | n :: sh', s :: sl' => (axis_window n s ::.) <$> windows sh' sl'
  end.

Definition window_shape (w : list (nat * nat)) : list nat := snd <$> w.

(** The elements of the windows [w] of an array of shape [sh]. *)
Fixpoint take_window (sh : list nat) (w : list (nat * nat)) (d : list elem)
  : list elem :=
  match sh, w with
  | n :: sh', (lo, cnt) :: w' =>
      mjoin (take_window sh' w' <$> take cnt (drop lo (rows n (size sh') d)))
  | _, _ => d
  end.

(** The elements of an array of shape [sh] after the windows [w] have been
    overwritten with the elements [v] (of shape [window_shape w]). *)
Fixpoint put_window (sh : list nat) (w : list (nat * nat)) (d v : list elem)
  : list elem :=
  match sh, w with
  | n :: sh', (lo, cnt) :: w' =>
      let bs := rows n (size sh') d in
      let vs := rows cnt (size (window_shape w')) v in
      mjoin (take lo bs
             ++ zip_with (put_window sh' w') (take cnt (drop lo bs)) vs
             ++ drop (lo + cnt) bs)
  | _, _ => v
  end.

(** [a[i0, i1, ...]] with one integer index per axis; [None] when an index
    is out of range or the number of indices is not the number of axes. *)
Fixpoint item_at (sh : list nat) (idx : list nat) (d : list elem) : option elem :=
  match sh, idx with
  | [], [] => head d
  | n :: sh', i :: idx' => rows n (size sh') d !! i ≫= item_at sh' idx'
  | _, _ => None
  end.

Definition item (a : ndarray) (idx : list nat) : option elem :=
  item_at (shape a) idx (data a).

(** Broadcasting of the elements [v] of shape [vs] to the shape [ts], both
    shapes having the same number of axes: an axis of length 1 is repeated,
    any other length has to agree. *)
Fixpoint broadcast_aligned (ts vs : list nat) (v : list elem)
  : option (list elem) :=
  match ts, vs with
  | [], [] => Some v
  | t :: ts', n :: vs' =>
      if decide (n = t) then
        mjoin <$> mapM (broadcast_aligned ts' vs') (rows n (size vs') v)
      else if decide (n = 1) then
        (λ b, mjoin (replicate t b)) <$> broadcast_aligned ts' vs' v
      else None
  | _, _ => None
  end.

(** Leading axes of length 1 that the target does not have are dropped. *)
Fixpoint drop_leading_ones (k : nat) (vs : list nat) : option (list nat) :=
  match k, vs with
  | 0, _ => Some vs
  | S k', 1 :: vs' => drop_leading_ones k' vs'
  | S _, _ => None
  end.

(** NumPy's broadcasting of a value to the shape [ts] of the target of an
    assignment; [None] is "could not broadcast input array". *)
Definition broadcast_to (ts vs : list nat) (v : list elem) : option (list elem) :=
  if decide (length vs ≤ length ts) then
    broadcast_aligned ts (replicate (length ts - length vs) 1 ++ vs) v
  else
    vs' ← drop_leading_ones (length vs - length ts) vs;
    broadcast_aligned ts vs' v.

(** All blocks of a list of blocks hold [bs] elements. *)
Definition blocks_of (bs : nat) (bl : list (list elem)) : Prop :=
  Forall (λ b, length b = bs) bl.

(** There is one window per axis, and each lies within its axis. *)
Definition window_fits (sh : list nat) (w : list (nat * nat)) : Prop :=
  Forall2 (λ n lw, lw.1 + lw.2 ≤ n) sh w.


(** The index of the array that the index [idx] of the windows [w] stands
    for. *)
Definition shift (w : list (nat * nat)) (idx : list nat) : list nat :=
  zip_with (λ lw i, lw.1 + i) w idx.

(** [a.astype(d)] *)
Definition astype_array (d : dtype) (a : ndarray) : ndarray :=
  Ndarray d (shape a) (astype d <$> data a).

(** [np.ones_like(a, dtype=d)] *)
Definition ones_like (a : ndarray) (d : dtype) : ndarray :=
  Ndarray d (shape a) (replicate (length (data a)) (one d)).

End Arrays.
End Numpy.

(** ** katdal/chunkstore.py: the parts [DictChunkStore] inherits *)

Module ChunkStore.
Section Base.
Context `{Scalars} `{Wording}.
Import Numpy.

(** The error map handed to [ChunkStore.__init__]: which built-in exception
    of the backend stands for which chunk store error. *)
Definition error_map_t : Type := list (builtin_error * chunk_error).

Fixpoint lookup_error (m : error_map_t) (b : builtin_error) : option chunk_error :=
  match m with
  | [] => None
  | (b', k) :: m' => if decide (b' = b) then Some k else lookup_error m' b
  end.

(** Modelled from the spec: [ChunkStore._standard_errors] is defined in
    [katdal/chunkstore.py], which is not among the sources.  Section 4.1: a
    failure signalled by the backend is "translated through a per-backend
    error-kind mapping supplied at construction".  An exception the map does
    not list is passed on as it is. *)
Definition standard_errors {A} (error_map : error_map_t) (chunk_name : chunk_id)
    (r : result A) : result A :=
  match r with
  | Ok a => Ok a
  | Raise (Builtin b msg) =>
      match lookup_error error_map b with
      | Some k => Raise (StoreError k (standard_text chunk_name (Builtin b msg)))
      | None => Raise (Builtin b msg)
      end
  | Raise e => Raise e
  end.

(** A range has unit step when its step is left out or is 1. *)
Definition unit_step (s : slice) : bool :=
  match step s with
  | None => true
  | Some k => bool_decide (k = 1%Z)
  end.

(** A range lies within an axis of length [n]. *)
Definition in_bounds (n : nat) (s : slice) : bool :=
  bool_decide (0 ≤ start s)%Z && bool_decide (start s ≤ stop s)%Z
  && bool_decide (stop s ≤ Z.of_nat n)%Z.

(** One range per dimension, each within the declared bounds. *)
Fixpoint all_in_bounds (sh : list nat) (sl : list slice) : bool :=
  match sh, sl with
  | [], [] => true
  | n :: sh', s :: sl' => in_bounds n s && all_in_bounds sh' sl'
  | _, _ => false
  end.

(** The shape a tuple of ranges stands for: [stop - start] per range. *)
Definition implied_shape (sl : list slice) : list Z :=
  (λ s, (stop s - start s)%Z) <$> sl.

Definition shape_as_Z (sh : list nat) : list Z := Z.of_nat <$> sh.

(** The window [(first, count)] a range names. *)
Definition exact_window (s : slice) : nat * nat :=
  (Z.to_nat (start s), Z.to_nat (stop s - start s)).

(** Modelled from the spec: [ChunkStore.chunk_metadata] is defined in
    [katdal/chunkstore.py], which is not among the sources.  Section 4.1:
    it "validates that every range is unit-step and in-bounds; if [chunk]
    is supplied (write path), derives shape/dtype from it.  Fails with
    BadChunk if any range has non-unit step, is out of bounds, or the
    chunk's dtype disagrees with a requested dtype"; a [put] moreover fails
    with BadChunk "if [data]'s shape disagrees with the target range's
    shape", and [chunk_metadata] is the only place of [put] that sees both
    shapes.  It returns the identity of the chunk and its shape.

    [declared] is the shape the backend declares for the named array, if it
    declares one; the ranges of an array without declared bounds have
    nothing to be checked against. *)
Definition chunk_metadata (declared : option (list nat)) (array_name : string)
    (slices : list slice) (dt : option dtype) (chunk : option ndarray)
  : result (chunk_id * list Z) :=
  let chunk_name : chunk_id := (array_name, slices) in
  let bad := Raise (StoreError BadChunk (metadata_text chunk_name)) in
  if negb (forallb unit_step slices) then bad
  else if match declared with
          | Some sh => negb (all_in_bounds sh slices)
          | None => false
          end then bad
  else match chunk with
       | None => Ok (chunk_name, implied_shape slices)
       | Some c =>
           if decide (shape_as_Z (shape c) ≠ implied_shape slices) then bad
           else match dt with
                | Some d =>
                    if decide (dtype_of c ≠ d) then bad
                    else Ok (chunk_name, shape_as_Z (shape c))
                | None => Ok (chunk_name, shape_as_Z (shape c))
                end
       end.

End Base.
End ChunkStore.

(** ** katdal/chunkstore_dict.py *)

Module DictChunkStore.
Section Store.
Context `{Scalars} `{Wording}.
Import Numpy ChunkStore.

(** The identity of an array object in the Python heap. *)
Definition loc : Type := nat.

(** A [DictChunkStore]: the error map it hands to [ChunkStore.__init__], the
    [arrays] dict from names to array objects, and the array objects
    themselves.  Two names may refer to one and the same object. *)
Record t : Type := Store {
  error_map : error_map_t;
  arrays : gmap string loc;
  heap : loc → ndarray
}.

(** The constructor: the keyword arguments become the [arrays] dict. *)
Definition init (kwargs : gmap string loc) (objects : loc → ndarray) : t :=
  Store [(KeyError, ChunkNotFound); (IndexError, ChunkNotFound)] kwargs objects.

(** What [a[slices]] returns for a tuple of slices: a view, which shares the
    elements of the array object [base] inside the given windows. *)
Record view : Type := View { base : loc; window : list (nat * nat) }.

(** The array a view shows at the moment. *)
Definition read (self : t) (v : view) : ndarray :=
  let a := heap self (base v) in
  Ndarray (dtype_of a) (window_shape (window v))
          (take_window (shape a) (window v) (data a)).

(** [self.arrays[array_name]] *)
Definition lookup_array (self : t) (array_name : string) : result loc :=
  match arrays self !! array_name with
  | Some l => Ok l
  | None => Raise (Builtin KeyError (py_repr array_name))
  end.

(** [a[slices]] for the array object [l] *)
Definition getitem (self : t) (l : loc) (slices : list slice) : result view :=
  match windows (shape (heap self l)) slices with
  | Some w => Ok (View l w)
  | None => Raise (Builtin IndexError (numpy_text IndexError))
  end.

(** The bounds the store declares for a named array. *)
Definition declared_shape (self : t) (array_name : string) : option (list nat) :=
  (λ l, shape (heap self l)) <$> arrays self !! array_name.

Definition get (self : t) (array_name : string) (slices : list slice)
    (dt : dtype) : result view :=
  '(chunk_name, _) ←
    chunk_metadata (declared_shape self array_name) array_name slices (Some dt) None;
  chunk ← standard_errors (error_map self) chunk_name
             (l ← lookup_array self array_name; getitem self l slices);
  if decide (dt ≠ dtype_of (read self chunk)) then
    Raise (StoreError BadChunk
             ("Chunk " +:+ repr_chunk chunk_name +:+ ": requested dtype "
              +:+ dtype_name dt +:+ " differs from actual dtype "
              +:+ dtype_name (dtype_of (read self chunk))))
  else Ok chunk.

(** [v[:] = chunk]: the value is broadcast to the shape of the view,
    converted to the dtype of the array when it has another one, and written
    into the array object the view points into. *)
Definition assign (self : t) (v : view) (chunk : ndarray) : t * result unit :=
  let a := heap self (base v) in
  match broadcast_to (window_shape (window v)) (shape chunk) (data chunk) with
  | None => (self, Raise (Builtin ValueError (numpy_text ValueError)))
  | Some vals =>
      let vals' := if decide (dtype_of chunk = dtype_of a) then vals
                   else astype (dtype_of a) <$> vals in
      let a' := Ndarray (dtype_of a) (shape a)
                        (put_window (shape a) (window v) (data a) vals') in
      (Store (error_map self) (arrays self) (<[base v := a']> (heap self)), Ok ())
  end.

Definition put (self : t) (array_name : string) (slices : list slice)
    (chunk : ndarray) : t * result unit :=
  match chunk_metadata (declared_shape self array_name) array_name slices
                       None (Some chunk) with
  | Raise e => (self, Raise e)
  | Ok _ =>
      match get self array_name slices (dtype_of chunk) with
      | Raise e => (self, Raise e)
      | Ok v => assign self v chunk
      end
  end.

(** A request for ranges of a stored array that passes the validation: unit
    steps, and one range per dimension within the bounds of the array. *)
Definition valid_request (self : t) (a : string) (l : loc) (r : list slice) : Prop :=
  arrays self !! a = Some l
  ∧ forallb unit_step r = true
  ∧ all_in_bounds (shape (heap self l)) r = true.

(** The store in which the array object [l] holds the elements of [x] in
    the windows of the ranges [r], and nothing else is different. *)
Definition written (self : t) (l : loc) (r : list slice) (x : ndarray) : t :=
  let a := heap self l in
  Store (error_map self) (arrays self)
        (<[l := Ndarray (dtype_of a) (shape a)
                  (put_window (shape a) (exact_window <$> r) (data a) (data x))]>
           (heap self)).

End Store.
End DictChunkStore.

(** ** katdal/datasources.py *)

Module DataSources.
Section Sources.
Context `{Scalars} `{Wording}.

(** A lazily evaluated (dask) array, as far as the data sources look at it:
    its shape and its dtype. *)
Record dask_array : Type := DaskArray { da_shape : list nat; da_dtype : dtype }.

(** Broadcasting of two shapes, written on the reversed shapes so that the
    trailing axes are lined up: two lengths agree when they are equal or one
    of them is 1. *)
Fixpoint broadcast_rev (a b : list nat) : option (list nat) :=
  match a, b with
  | [], _ => Some b
  | _, [] => Some a
  | x :: a', y :: b' =>
      if decide (x = y) then (x ::.) <$> broadcast_rev a' b'
      else if decide (x = 1) then (y ::.) <$> broadcast_rev a' b'
      else if decide (y = 1) then (x ::.) <$> broadcast_rev a' b'
      else None
  end.

Definition broadcast_shapes (a b : list nat) : option (list nat) :=
  reverse <$> broadcast_rev (reverse a) (reverse b).

(** [a * b] *)
Definition multiply (a b : dask_array) : result dask_array :=
  match broadcast_shapes (da_shape a) (da_shape b) with
  | Some sh => Ok (DaskArray sh (result_type (da_dtype a) (da_dtype b)))
  | None => Raise (Builtin ValueError (numpy_text ValueError))
  end.

(** [a[..., np.newaxis]] *)
Definition new_trailing_axis (a : dask_array) : dask_array :=
  DaskArray (da_shape a ++ [1]) (da_dtype a).

Record VisFlagsWeights : Type := MkVisFlagsWeights {
  vis : dask_array;
  flags : dask_array;
  weights : dask_array;
  name : string
}.

Definition VisFlagsWeights_init (vis flags weights : dask_array) (name : string)
  : result VisFlagsWeights :=
  if negb (bool_decide (da_shape vis = da_shape flags)
           && bool_decide (da_shape flags = da_shape weights)) then
    Raise (Builtin ValueError
             ("Shapes of vis " +:+ py_str_shape (da_shape vis)
              +:+ ", flags " +:+ py_str_shape (da_shape flags)
              +:+ " and weights " +:+ py_str_shape (da_shape weights)
              +:+ " differ"))
  else Ok (MkVisFlagsWeights vis flags weights name).


(** One entry of [chunk_info]. *)
Record array_info : Type := ArrayInfo {
  info_dtype : dtype;
  info_shape : list nat;
  info_chunks : list (list nat)
}.

(** What [ChunkStoreVisFlagsWeights] uses of its chunk store; both methods
    are defined in [katdal/chunkstore.py]. *)
Record chunk_store : Type := ChunkStoreOps {
  join : string → string → string;
  get_dask_array : string → list (list nat) → dtype → dask_array
}.

(** [da[key]] *)
Definition dict_get (da : gmap string dask_array) (key : string) : result dask_array :=
  match da !! key with
  | Some a => Ok a
  | None => Raise (Builtin KeyError (py_repr key))
  end.

Definition ChunkStoreVisFlagsWeights_init (store : chunk_store) (base_name : string)
    (chunk_info : gmap string array_info) : result VisFlagsWeights :=
  let da := map_imap (λ array info,
                Some (get_dask_array store (join store base_name array)
                        (info_chunks info) (info_dtype info))) chunk_info in
  vis ← dict_get da "correlator_data";
  flags ← dict_get da "flags";
  w ← dict_get da "weights";
  wc ← dict_get da "weights_channel";
  weights ← multiply w (new_trailing_axis wc);
  VisFlagsWeights_init vis flags weights base_name.

(** The three arrays of an object have one shape. *)
Definition same_shapes (obj : VisFlagsWeights) : Prop :=
  da_shape (vis obj) = da_shape (flags obj)
  ∧ da_shape (flags obj) = da_shape (weights obj).

(** The dask array the store hands out for an entry of [chunk_info]. *)
Definition stored_array (store : chunk_store) (base_name array : string)
    (info : array_info) : dask_array :=
  get_dask_array store (join store base_name array) (info_chunks info)
                 (info_dtype info).

End Sources.
End DataSources.

(** ** katdal/lazy_indexer.py, as far as [H5DataV3] relies on it *)

Module LazyIndexer.
Section Indexer.
Context `{Scalars} `{Wording}.
Import Numpy.

(** One entry of the selection given when an indexer is read: an integer,
    or anything that selects a range of an axis (a slice, an index list, a
    boolean mask). *)
Inductive dim_keep : Type :=
| KeepIndex (i : Z)
| KeepSlice (s : option slice)
| KeepList (l : list Z)
| KeepMask (m : list bool).

(** [np.isscalar] *)
Definition isscalar (k : dim_keep) : bool :=
  match k with
  | KeepIndex _ => true
  | _ => false
  end.

Record LazyTransform : Type := MkLazyTransform {
  transform_name : string;
  transform : ndarray → list dim_keep → result ndarray
}.

(** An indexer over a dataset of type [D] with a first-stage selection of
    type [S]. *)
Record t (D S : Type) : Type := MkLazyIndexer {
  dataset : D;
  keep : S;
  transforms : list LazyTransform
}.

(** The transforms applied one after the other, each with the selection the
    caller gave. *)
Fixpoint apply_transforms (ts : list LazyTransform) (k : list dim_keep)
    (d : ndarray) : result ndarray :=
  match ts with
  | [] => Ok d
  | tr :: ts' => d' ← transform tr d k; apply_transforms ts' k d'
  end.

(** Modelled from the spec: [LazyIndexer.__getitem__] is defined in
    [katdal/lazy_indexer.py], which is not among the sources.  Section 4.2:
    reading an indexer pulls the selected sub-array from the backing store
    and then folds "the pulled data through the transform chain in declared
    order; every transform receives the same original" second-stage
    selection.  [pull] stands for the read of the backing dataset. *)
Definition getitem {D S} (pull : D → S → list dim_keep → result ndarray)
    (ix : t D S) (k : list dim_keep) : result ndarray :=
  d ← pull (dataset D S ix) (keep D S ix) k;
  apply_transforms (transforms D S ix) k d.

End Indexer.
Arguments MkLazyIndexer {_ D S} dataset keep transforms.
Arguments dataset {_ D S} _.
Arguments keep {_ D S} _.
Arguments transforms {_ D S} _.
End LazyIndexer.

(** ** katdal/sensordata.py and katdal/categorical.py, as far as [H5DataV3]
    relies on them *)

Module SensorCache.
Section Cache.
Context `{Wording} {V : Type}.

(** Modelled from the spec: [SensorCache] is defined in
    [katdal/sensordata.py], which is not among the sources.  Section 6: the
    cache offers a "name-keyed lookup ([get], [get_with_fallback]) that
    raises a lookup-failure error when a name is unresolved and not covered
    by any virtual pattern".  [resolve] tells what a name resolves to, be it
    a stored or a virtual sensor; the callers in [h5datav3.py] catch the
    lookup failure as a [KeyError]. *)
Record t : Type := MkSensorCache { resolve : string → option V }.

Definition get (self : t) (name : string) : result V :=
  match resolve self name with
  | Some v => Ok v
  | None => Raise (Builtin KeyError (py_repr name))
  end.

(** The candidates that are still to be tried. *)
Fixpoint try_names (self : t) (sensor_type : string) (all names : list string)
  : result V :=
  match names with
  | [] => Raise (Builtin KeyError (lookup_text sensor_type all))
  | name :: names' =>
      match get self name with
      | Ok v => Ok v
      | Raise _ => try_names self sensor_type all names'
      end
  end.

(** Modelled from the spec: [SensorCache.get_with_fallback] is defined in
    [katdal/sensordata.py], which is not among the sources.  Section 4.3: it
    "tries each candidate name in order, returns the first that resolves;
    fails with a lookup error if none resolve". *)
Definition get_with_fallback (self : t) (sensor_type : string)
    (names : list string) : result V :=
  try_names self sensor_type names names.

(** None of the names resolves. *)
Definition unresolved (self : t) (names : list string) : Prop :=
  Forall (λ n, resolve self n = None) names.

End Cache.
Arguments t V : clear implicits.
End SensorCache.

Module CategoricalData.
Section Categorical.
Context {V : Type}.

(** Modelled from the spec: [CategoricalData] is defined in
    [katdal/categorical.py], which is not among the sources.  Section 3: a
    piecewise-constant sequence is kept "as two parallel ordered sequences,
    [events] (length k+1, strictly increasing, events[0] = 0,
    events[k] = N) and [values] (length k)", the value [values[i]] holding
    from [events[i]] up to [events[i+1]]. *)
Record t : Type := MkCategoricalData { values : list V; events : list Z }.

(** [r] is a better boundary for [x] than [best]: it is nearer, or as near
    and earlier. *)
Definition nearer (x r best : Z) : bool :=
  (Z.abs (r - x) <? Z.abs (best - x))%Z
  || ((Z.abs (r - x) =? Z.abs (best - x))%Z && (r <? best)%Z).

Fixpoint nearest_from (x best : Z) (ref : list Z) : Z :=
  match ref with
  | [] => best
  | r :: ref' => nearest_from x (if nearer x r best then r else best) ref'
  end.

(** The boundary of [ref] nearest to [x], the earlier one of two that are
    equally near; without any reference boundary [x] stays where it is. *)
Definition nearest (ref : list Z) (x : Z) : Z :=
  match ref with
  | [] => x
  | r :: ref' => nearest_from x r ref'
  end.

(** [f] applied to all but the last element. *)
Fixpoint map_but_last (f : Z → Z) (l : list Z) : list Z :=
  match l with
  | [] => []
  | [z] => [z]
  | b :: l' => f b :: map_but_last f l'
  end.

(** [f] applied to the internal boundaries: all events but the first and
    the last. *)
Definition map_internal (f : Z → Z) (ev : list Z) : list Z :=
  match ev with
  | [] => []
  | e0 :: ev' => e0 :: map_but_last f ev'
  end.

(** Modelled from the spec: [CategoricalData.align] is defined in
    [katdal/categorical.py], which is not among the sources.  Section 4.3:
    it "snaps every internal boundary to the nearest boundary in
    [reference_events]; ties broken toward the earlier boundary". *)
Definition align (self : t) (reference_events : list Z) : t :=
  MkCategoricalData (values self)
                    (map_internal (nearest reference_events) (events self)).

End Categorical.
Arguments t V : clear implicits.
End CategoricalData.

(** ** katdal/h5datav3.py *)

Module H5DataV3.
Section DataSet.
Context `{Scalars} `{Wording}.
Import Numpy LazyIndexer.

Definition WEIGHT_NAMES : list string := ["precision"].
Definition WEIGHT_DESCRIPTIONS : list string :=
  ["visibility precision (inverse variance, i.e. 1 / sigma^2)"].

(** What [logger.warning] has been called with. *)
Inductive log_record : Type := Warning (msg : string).

(** The first-stage selection of a vis-like dataset: one boolean mask per
    axis (time, frequency, correlation product). *)
Definition stage1_t : Type := list bool * list bool * list bool.

(** The attributes of an [H5DataV3] object that the weights depend on.
    [weights_description] is [None] as long as the attribute has not been
    set; [D] is the type of HDF5 datasets. *)
Record t (D : Type) : Type := MkH5DataV3 {
  weights_dataset : D;
  weights_description : option (list (string * string));
  weights_select : list nat;
  time_keep : list bool;
  freq_keep : list bool;
  corrprod_keep : list bool;
  squeeze : bool
}.
Arguments MkH5DataV3 {D} _ _ _ _ _ _ _.
Arguments weights_dataset {D} _.
Arguments weights_description {D} _.
Arguments weights_select {D} _.
Arguments time_keep {D} _.
Arguments freq_keep {D} _.
Arguments corrprod_keep {D} _.
Arguments squeeze {D} _.

(** [[row[0] for row in getattr(self, '_weights_description', [])]] *)
Definition known_weights {D} (self : t D) : list string :=
  match weights_description self with
  | Some rows => fst <$> rows
  | None => []
  end.

(** [l.index(x)]: the first position of [x], or [None] for [ValueError]. *)
Fixpoint list_index (x : string) (l : list string) : option nat :=
  match l with
  | [] => None
  | y :: l' => if decide (y = x) then Some 0 else S <$> list_index x l'
  end.

(** [s.split(sep)] for a separator of one character. *)
Fixpoint split (sep : Ascii.ascii) (s : string) : list string :=
  match s with
  | EmptyString => [EmptyString]
  | String c s' =>
      if decide (c = sep) then EmptyString :: split sep s'
      else match split sep s' with
           | [] => [String c EmptyString]
           | w :: ws => String c w :: ws
           end
  end.

(** The value assigned to [_weights_keep]: a string or a sequence of
    names. *)
Inductive names_arg : Type :=
| NamesStr (s : string)
| NamesSeq (l : list string).

(** The loop of the setter: the index list built so far and the warnings
    logged so far. *)
Fixpoint select_names (known : list string) (names : list string)
    (selection : list nat) (log : list log_record) : list nat * list log_record :=
  match names with
  | [] => (selection, log)
  | name :: names' =>
      match list_index name known with
      | Some i => select_names known names' (selection ++ [i]) log
      | None =>
          select_names known names' selection
            (log ++ [Warning (py_repr name
                       +:+ " is not a legitimate weight type for this file, "
                       +:+ "supported ones are " +:+ py_str_list known)])
      end
  end.

Definition no_valid_weights : log_record :=
  Warning "No valid weights were selected - setting all weights to 1.0 by default".

(** The setter of [_weights_keep]: the object afterwards and the warnings it
    logged. *)
Definition set_weights_keep {D} (self : t D) (names : names_arg)
  : t D * list log_record :=
  let known := known_weights self in
  let names :=
    match names with
    | NamesStr s => if decide (s = "all") then known else split ","%char s
    | NamesSeq l => l
    end in
  let '(selection, log) := select_names known names [] [] in
  let log :=
    if negb (bool_decide (known = [])) && bool_decide (selection = [])
    then log ++ [no_valid_weights] else log in
  (MkH5DataV3 (weights_dataset self) (weights_description self) selection
              (time_keep self) (freq_keep self) (corrprod_keep self)
              (squeeze self), log).

(** The weights part of [__init__]: the description table of the file, or
    the default one when the file has none, and then all weights selected. *)
Definition init_weights {D} (weights : D)
    (description : option (list (string * string)))
    (time_keep freq_keep corrprod_keep : list bool) (squeeze : bool)
  : t D * list log_record :=
  let description :=
    match description with
    | Some rows => rows
    | None => zip WEIGHT_NAMES WEIGHT_DESCRIPTIONS
    end in
  set_weights_keep
    (MkH5DataV3 weights (Some description) [] time_keep freq_keep corrprod_keep
                squeeze)
    (NamesStr "all").

(** The shape of [data[keep_singles]], where an entry of [keep_singles] is
    [np.newaxis] ([true]) or [slice(None)] ([false]); [None] for "too many
    indices". *)
Fixpoint restore_axes (entries : list bool) (sh : list nat) : option (list nat) :=
  match entries with
  | [] => Some sh
  | true :: es => (1 ::.) <$> restore_axes es sh
  | false :: es =>
      match sh with
      | [] => None
      | n :: sh' => (n ::.) <$> restore_axes es sh'
      end
  end.

(** [_force_3dim] of [_vislike_indexer] *)
Definition force_3dim (d : ndarray) (k : list dim_keep) : result ndarray :=
  let k := take 3 k ++ replicate (3 - length k) (KeepSlice None) in
  let keep_singles := isscalar <$> k in
  match restore_axes keep_singles (shape d) with
  | Some sh => Ok (Ndarray (dtype_of d) sh (data d))
  | None => Raise (Builtin IndexError (numpy_text IndexError))
  end.

(** [_vislike_indexer]; [len] gives the number of dumps of a dataset.  When
    the file holds a duplicate final dump, the time selection is one entry
    short and the last dump of the file is left out. *)
Definition vislike_indexer {D} (len : D → nat) (self : t D) (dataset : D)
    (extractor : LazyTransform) : LazyIndexer.t D stage1_t :=
  let time_keep :=
    if decide (length (time_keep self) = len dataset - 1) then
      time_keep self
      ++ replicate (len dataset - length (time_keep self)) false
    else time_keep self in
  let stage1 := (time_keep, freq_keep self, corrprod_keep self) in
  let force := MkLazyTransform "force_3dim" force_3dim in
  let transforms := if squeeze self then [extractor] else [extractor; force] in
  MkLazyIndexer dataset stage1 transforms.

(** The transform of the [weights] property. *)
Definition weights_transform {D} (self : t D) (w : ndarray)
    (k : list dim_keep) : result ndarray :=
  Ok (if negb (bool_decide (weights_select self = [])) then astype_array float32 w
      else ones_like w float32).

(** The [weights] property. *)
Definition weights {D} (len : D → nat) (self : t D) : LazyIndexer.t D stage1_t :=
  let extract := MkLazyTransform "extract_weights" (weights_transform self) in
  vislike_indexer len self (weights_dataset self) extract.


(** The weather properties: each asks the sensor cache for the first of its
    candidate sensors that resolves. *)
Definition temperature {V} (sensor : SensorCache.t V) : result V :=
  let names := ["Enviro/air_temperature"; "TelescopeState/anc_weather_temperature"] in
  SensorCache.get_with_fallback sensor "temperature" names.

Definition pressure {V} (sensor : SensorCache.t V) : result V :=
  let names := ["Enviro/air_pressure"; "TelescopeState/anc_weather_pressure"] in
  SensorCache.get_with_fallback sensor "pressure" names.

Definition humidity {V} (sensor : SensorCache.t V) : result V :=
  let names := ["Enviro/air_relative_humidity"; "TelescopeState/anc_weather_humidity"] in
  SensorCache.get_with_fallback sensor "humidity" names.

Definition wind_speed {V} (sensor : SensorCache.t V) : result V :=
  let names := ["Enviro/mean_wind_speed"; "Enviro/wind_speed";
                "TelescopeState/anc_weather_wind_speed"] in
  SensorCache.get_with_fallback sensor "wind_speed" names.

(** The two alignments of [__init__]: the label events and the target
    events are moved onto the nearest scan start. *)
Definition align_label {V} (label scan : CategoricalData.t V) : CategoricalData.t V :=
  CategoricalData.align label (CategoricalData.events scan).

Definition align_target {V} (target scan : CategoricalData.t V) : CategoricalData.t V :=
  CategoricalData.align target (CategoricalData.events scan).

End DataSet.
Arguments MkH5DataV3 {D} _ _ _ _ _ _ _.
Arguments weights_dataset {D} _.
Arguments weights_description {D} _.
Arguments weights_select {D} _.
Arguments time_keep {D} _.
Arguments freq_keep {D} _.
Arguments corrprod_keep {D} _.
Arguments squeeze {D} _.
End H5DataV3.

(** ** Concrete scalars, wording and inputs *)

Module Examples.
Import Numpy ChunkStore DictChunkStore.

(** Integer scalars: a conversion keeps the value, and 1 is 1. *)
#[export] Instance int_scalars : Scalars := {|
  elem := Z;
  astype := λ _ x, x;
  one := λ _, 1%Z;
  result_type := λ a _, a
|}.

Definition quoted (s : string) : string := "'" +:+ s +:+ "'".

Definition slice_text (s : slice) : string :=
  pretty (start s) +:+ ":" +:+ pretty (stop s).

Definition chunk_text (c : chunk_id) : string :=
  quoted (c.1 +:+ "[" +:+ String.concat "," (slice_text <$> c.2) +:+ "]").

(** A plain rendering of the texts. *)
#[export] Instance plain_wording : Wording := {|
  py_repr := quoted;
  py_str_list := λ l, "[" +:+ String.concat ", " (quoted <$> l) +:+ "]";
  py_str_shape := λ sh, "(" +:+ String.concat ", " (pretty <$> sh) +:+ ")";
  repr_chunk := chunk_text;
  numpy_text := λ e,
    match e with
    | IndexError => "too many indices for array"
    | ValueError => "could not broadcast input array"
    | KeyError => "key not found"
    end;
  metadata_text := λ c, "Chunk " +:+ chunk_text c +:+ ": bad request";
  standard_text := λ c _, "Chunk " +:+ chunk_text c +:+ ": not found";
  lookup_text := λ t names,
    "Could not find any " +:+ quoted t +:+ " sensor (tried "
    +:+ String.concat ", " names +:+ ")"
|}.

(** Scenario A: the array "vis" of shape (4, 2, 1) in an in-memory store,
    and the block (1:3, 0:2, 0:1). *)
Definition vis_ref : ndarray :=
  Ndarray complex64 [4; 2; 1] [10; 11; 20; 21; 30; 31; 40; 41]%Z.

Definition vis_store : DictChunkStore.t := init {["vis" := 0]} (λ _, vis_ref).

Definition block : list slice := [range 1 3; range 0 2; range 0 1].

Definition block_index : list nat := [1; 0; 0].

Definition new_block : ndarray := Ndarray complex64 [2; 2; 1] [1; 2; 3; 4]%Z.

(** Every second dump. *)
Definition strided : list slice := [Slice 0 4 (Some 2%Z); range 0 2; range 0 1].

(** A chunk that does not have the shape of [block]. *)
Definition misshapen : ndarray := Ndarray complex64 [3] [1; 2; 3]%Z.


(** Dask arrays whose chunks tile their shape. *)
Definition tiled_store : DataSources.chunk_store :=
  DataSources.ChunkStoreOps
    (λ a b, a +:+ "/" +:+ b)
    (λ _ chunks dt, DataSources.DaskArray (sum_list <$> chunks) dt).

Definition tfb_chunks : list (list nat) := [[2; 2]; [2]; [1]].

Definition tiled_info : gmap string DataSources.array_info :=
  <["correlator_data" := DataSources.ArrayInfo complex64 [4; 2; 1] tfb_chunks]>
  (<["flags" := DataSources.ArrayInfo uint8 [4; 2; 1] tfb_chunks]>
  (<["weights" := DataSources.ArrayInfo uint8 [4; 2; 1] tfb_chunks]>
  {["weights_channel" := DataSources.ArrayInfo float32 [4; 2] [[2; 2]; [2]]]})).

(** A version 3 file of two dumps, read as a whole; [no_types] is the data
    set of a file whose table of weight descriptions is empty. *)
Definition stored_weights : ndarray := Ndarray float32 [2; 1; 1] [5; 7]%Z.

Definition read_all (d : ndarray) (s : H5DataV3.stage1_t)
    (k : list LazyIndexer.dim_keep) : result ndarray := Ok d.

Definition dumps (d : ndarray) : nat := default 0 (head (shape d)).


Definition one_type : H5DataV3.t ndarray :=
  (H5DataV3.init_weights stored_weights None [true; true] [true] [true] false).1.

Definition everything : list LazyIndexer.dim_keep :=
  [LazyIndexer.KeepSlice None; LazyIndexer.KeepSlice None; LazyIndexer.KeepSlice None].

(** Scenario D: a cache in which only "B" resolves, and an empty one. *)
Definition only_B : SensorCache.t Z :=
  SensorCache.MkSensorCache (λ n, if decide (n = "B") then Some 21%Z else None).

Definition no_sensors : SensorCache.t Z := SensorCache.MkSensorCache (λ _, None).

End Examples.

(** ** katdal/datasources.py: data sources on a telescope state *)

Module TelstateSource.
Section Telstate.
Context `{Scalars} `{Wording}.
Import DataSources.

(** [s.startswith(p)] *)
Fixpoint startswith (s p : string) {struct p} : bool :=
  match p, s with
  | EmptyString, _ => true
  | String c p', String d s' => bool_decide (c = d) && startswith s' p'
  | String _ _, EmptyString => false
  end.

(** [s[n:]] *)
Fixpoint string_drop (n : nat) (s : string) : string :=
  match n, s with
  | 0, _ => s
  | S n', String _ s' => string_drop n' s'
  | S _, EmptyString => EmptyString
  end.

(** Timestamps are kept abstract, with the sum, the product and the
    conversion of a dump number that [__init__] computes with. *)
Class Clock : Type := {
  time : Type;
  time_add : time → time → time;
  time_mul : time → time → time;
  time_of_nat : nat → time
}.
Context `{Clock}.

(** What [TelstateDataSource] reads of a [katsdptelstate.TelescopeState]:
    its prefixes and keys, which keys are immutable, and the values of the
    keys that describe the data ([None] for a key that is not there). *)
Record telstate : Type := MkTelstate {
  prefixes : list string;
  keys : list string;
  is_immutable : string → bool;
  sync_time : option time;
  first_timestamp : option time;
  int_time : option time;
  chunk_name : option string;
  chunk_info : option (gmap string array_info);
  s3_endpoint_url : option string
}.

Fixpoint shorten (prefixes : list string) (key : string) : string :=
  match prefixes with
  | [] => EmptyString
  | prefix :: prefixes' =>
      if startswith key prefix then string_drop (String.length prefix) key
      else shorten prefixes' key
  end.

Definition shorten_key (ts : telstate) (key : string) : string :=
  shorten (prefixes ts) key.

(** The loop of [TelstateDataSource.__init__] that collects the sensors;
    a [TelstateSensorData(telstate, key)] is stood for by its key. *)
Definition add_sensor (ts : telstate) (sensors : gmap string string)
    (key : string) : gmap string string :=
  if negb (is_immutable ts key) then
    let sensor_name := shorten_key ts key in
    if negb (bool_decide (sensor_name = EmptyString))
    then <[sensor_name := key]> sensors
    else sensors
  else sensors.

Definition collect_sensors (ts : telstate) : gmap string string :=
  foldl (add_sensor ts) ∅ (keys ts).

Record AttrsSensors : Type := MkAttrsSensors {
  attrs : telstate;
  sensors : gmap string string;
  as_name : string
}.

Record DataSource : Type := MkDataSource {
  metadata : AttrsSensors;
  timestamps : option (list time);
  data : option VisFlagsWeights
}.

(** The [name] property of [DataSource]. *)
Definition DataSource_name (self : DataSource) : string :=
  let name := as_name (metadata self) in
  match data self with
  | Some d =>
      if decide (DataSources.name d ≠ name) then name +:+ " | " +:+ DataSources.name d
      else name
  | None => name
  end.

(** The keys read inside the [try] block, with the chunk store that was
    given or else the URL of the one to open; [None] when one of the keys
    raises [KeyError]. *)
Definition data_keys (ts : telstate) (chunk_store : option chunk_store)
  : option (time * time * string * gmap string array_info
            * (DataSources.chunk_store + string)) :=
  st ← sync_time ts;
  ft ← first_timestamp ts;
  it ← int_time ts;
  cn ← chunk_name ts;
  ci ← chunk_info ts;
  src ← match chunk_store with
        | None => inr <$> s3_endpoint_url ts
        | Some store => Some (inl store)
        end;
  Some (time_add st ft, it, cn, ci, src).

(** [t0 + np.arange(n_dumps) * int_time] *)
Definition make_timestamps (t0 : time) (n_dumps : nat) (it : time) : list time :=
  (λ i, time_add t0 (time_mul (time_of_nat i) it)) <$> seq 0 n_dumps.

(** [chunk_info['correlator_data']['shape'][0]] *)
Definition first_dump_count (ci : gmap string array_info) : result nat :=
  match ci !! "correlator_data" with
  | None => Raise (Builtin KeyError (py_repr "correlator_data"))
  | Some info =>
      match info_shape info with
      | [] => Raise (Builtin IndexError "tuple index out of range")
      | n :: _ => Ok n
      end
  end.

(** [TelstateDataSource.__init__]; [s3_from_url] is [S3ChunkStore.from_url]. *)
Definition TelstateDataSource_init (s3_from_url : string → chunk_store)
    (ts : telstate) (chunk_store : option chunk_store) (source_name : string)
  : result DataSource :=
  let metadata := MkAttrsSensors ts (collect_sensors ts) source_name in
  match data_keys ts chunk_store with
  | None => Ok (MkDataSource metadata None None)
  | Some (t0, it, cn, ci, src) =>
      n_dumps ← first_dump_count ci;
      let timestamps := make_timestamps t0 n_dumps it in
      let store :=
        match src with
        | inl store => store
        | inr s3_endpoint_url => s3_from_url s3_endpoint_url
        end in
      d ← ChunkStoreVisFlagsWeights_init store cn ci;
      Ok (MkDataSource metadata (Some timestamps) (Some d))
  end.

End Telstate.
End TelstateSource.

(** ** katdal/h5datav3.py: the selection of weights and flags *)

Module H5Select.
Section Select.
Context `{Scalars} `{Wording}.
Import Numpy LazyIndexer H5DataV3.

(** The getter of [_weights_keep]; an index beyond the known weights is the
    [IndexError] of the list. *)
Definition get_weights_keep {D} (self : H5DataV3.t D) : result (list string) :=
  let known_weights := known_weights self in
  match mapM (λ ind, known_weights !! ind) (weights_select self) with
  | Some names => Ok names
  | None => Raise (Builtin IndexError "list index out of range")
  end.

(** The names that an assignment to [_weights_keep] or [_flags_keep] asks
    for, given the known ones: all of them for the string "all", the parts
    of a comma-separated string, or the names of a sequence. *)
Definition requested (known : list string) (names : names_arg) : list string :=
  match names with
  | NamesStr s => if decide (s = "all") then known else split ","%char s
  | NamesSeq l => l
  end.

(** The warning about a name that is not a weight type of the file. *)
Definition not_a_weight (known : list string) (name : string) : log_record :=
  Warning (py_repr name +:+ " is not a legitimate weight type for this file, "
           +:+ "supported ones are " +:+ py_str_list known).

(** The warning about a name that is not a flag type of the file. *)
Definition not_a_flag (known : list string) (name : string) : log_record :=
  Warning (py_repr name +:+ " is not a legitimate flag type for this file, "
           +:+ "supported ones are " +:+ py_str_list known).

(** The character [c] occurs in [s]. *)
Fixpoint has_char (c : Ascii.ascii) (s : string) : bool :=
  match s with
  | EmptyString => false
  | String d s' => bool_decide (d = c) || has_char c s'
  end.

Definition FLAG_NAMES : list string :=
  ["reserved0"; "static"; "cam"; "data_lost"; "ingest_rfi"; "predicted_rfi";
   "cal_rfi"; "reserved7"].

(** [np.packbits] of eight bits: the first bit is the most significant
    one. *)
Definition packbits (bits : list bool) : Z :=
  foldl (λ acc (b : bool), (2 * acc + (if b then 1 else 0))%Z) 0%Z bits.

(** [np.unpackbits] of one byte: the most significant bit first. *)
Definition unpackbits (byte : Z) : list bool :=
  (λ i, Z.testbit byte (Z.of_nat i)) <$> [7; 6; 5; 4; 3; 2; 1; 0].

(** [np.flipud] *)
Definition flipud {A} (l : list A) : list A := reverse l.

(** The attributes of an [H5DataV3] object that the flags depend on:
    [flags_description] is [None] as long as the attribute has not been set,
    and [flags_select] is the one byte of the flag mask. *)
Record flags_t : Type := MkFlags {
  flags_description : option (list (string * string));
  flags_select : Z
}.

(** The loop of the setter of [_flags_keep]: the bits set so far and the
    warnings logged so far. *)
Fixpoint mark_names (known : list string) (names : list string)
    (selection : list bool) (log : list log_record) : list bool * list log_record :=
  match names with
  | [] => (selection, log)
  | name :: names' =>
      match list_index name known with
      | Some i => mark_names known names' (<[i := true]> selection) log
      | None =>
          mark_names known names' selection
            (log ++ [Warning (py_repr name
                       +:+ " is not a legitimate flag type for this file, "
                       +:+ "supported ones are " +:+ py_str_list known)])
      end
  end.

Definition no_valid_flags : log_record :=
  Warning "No valid flags were selected - setting all flags to False by default".

(** The setter of [_flags_keep]: the object afterwards and the warnings it
    logged, or [None] when the [assert] on the number of flag types does not
    hold and an exception is raised. *)
Definition set_flags_keep (self : flags_t) (names : names_arg)
  : option (flags_t * list log_record) :=
  match flags_description self with
  | None => Some (MkFlags None 0, [])
  | Some rows =>
      let known := fst <$> rows in
      let names :=
        match names with
        | NamesStr s => if decide (s = "all") then known else split ","%char s
        | NamesSeq l => l
        end in
      let selection := replicate 8 false in
      if decide (length known = length selection) then
        let '(selection, log) := mark_names known names selection [] in
        let flagmask := packbits (flipud selection) in
        let log :=
          if negb (bool_decide (known = [])) && bool_decide (flagmask = 0%Z)
          then log ++ [no_valid_flags] else log in
        Some (MkFlags (Some rows) flagmask, log)
      else None
  end.

(** The getter of [_flags_keep], [None] again when the [assert] does not
    hold. *)
Definition get_flags_keep (self : flags_t) : option (list string) :=
  match flags_description self with
  | None => Some []
  | Some rows =>
      let known := fst <$> rows in
      let selection := flipud (unpackbits (flags_select self)) in
      if decide (length known = length selection) then
        Some (fst <$> filter (λ nb, nb.2 = true) (zip known selection))
      else None
  end.

Definition FLAG_DESCRIPTIONS : list string :=
  ["reserved - bit 0"; "predefined static flag list";
   "flag based on live CAM information"; "no data was received";
   "RFI detected in ingest"; "RFI predicted from space based pollutants";
   "RFI detected in calibration"; "reserved - bit 7"].

(** The flags part of [__init__]: the description table of the file, or
    the default one when the file has none, and then all flags selected. *)
Definition init_flags (description : option (list (string * string)))
  : option (flags_t * list log_record) :=
  let description :=
    match description with
    | Some rows => rows
    | None => zip FLAG_NAMES FLAG_DESCRIPTIONS
    end in
  set_flags_keep (MkFlags (Some description) 0) (NamesStr "all").

(** The transform of the [flags] property on one byte of flag data:
    [np.bool_(np.bitwise_and(self._flags_select, flags))]. *)
Definition flag_set (self : flags_t) (byte : Z) : bool :=
  negb (Z.land (flags_select self) byte =? 0)%Z.

(** The transform on the bytes of an array of flags. *)
Definition flags_transform (self : flags_t) (flags : list Z) : list bool :=
  flag_set self <$> flags.

End Select.
End H5Select.

(** ** katdal/h5datav3.py: dumps and correlation products of [__init__] *)

Module H5Init.
Section Init.
Context `{Scalars} `{Wording}.
Import H5DataV3.

(** The errors of the constructor beside Python's own. *)
Inductive init_error : Type :=
| BrokenFile (msg : string)
| PyIndexError.

(** The number of dumps that are kept: the last one is discarded when its
    timestamp is the one before it over again.  [eqb] is [==] on
    timestamps. *)
Definition kept_dumps {T} (eqb : T → T → bool) (timestamps : list T) : nat :=
  let num_dumps := length timestamps in
  if bool_decide (1 < num_dumps)
     && match list.last timestamps, list.last (take (num_dumps - 1) timestamps) with
        | Some a, Some b => eqb a b
        | _, _ => false
        end
  then num_dumps - 1 else num_dumps.

(** The last timestamp is the one before it over again. *)
Definition final_dump_repeated {T} (eqb : T → T → bool) (timestamps : list T)
  : Prop :=
  ∃ front a b, timestamps = front ++ [a; b] ∧ eqb b a = true.

(** [s[:-1]] *)
Fixpoint drop_last (s : string) : string :=
  match s with
  | EmptyString => EmptyString
  | String c EmptyString => EmptyString
  | String c s' => String c (drop_last s')
  end.

(** [corrprods[range(1, len(corrprods)) + [0]]]: without any label the
    index 0 is out of bounds. *)
Definition rotate {A} (corrprods : list A) : option (list A) :=
  match corrprods with
  | [] => None
  | cp :: rest => Some (rest ++ [cp])
  end.

(** Both inputs of a correlation product belong to antennas in use. *)
Definition in_use (obs_ants : list string) (cp : string * string) : bool :=
  bool_decide (drop_last cp.1 ∈ obs_ants) && bool_decide (drop_last cp.2 ∈ obs_ants).

(** The part of [__init__] that settles the correlation product labels:
    [n_bls] is [self._vis.shape[2]].  It gives the labels of the subarray
    and the warnings logged. *)
Definition settle_corrprods (corrprods : list (string * string)) (rotate_bls : bool)
    (n_bls : nat) (obs_ants : list string)
  : (list (string * string) * list log_record) + init_error :=
  match (if rotate_bls then rotate corrprods else Some corrprods) with
  | None => inr PyIndexError
  | Some corrprods =>
      if decide (length corrprods ≠ n_bls) then
        let corrprods := filter (λ cp, in_use obs_ants cp = true) corrprods in
        if decide (length corrprods ≠ n_bls) then
          inr (BrokenFile
                 ("Number of baseline labels (containing expected antenna names) "
                  +:+ "received from correlator (" +:+ pretty (length corrprods)
                  +:+ ") differs from number of baselines in data ("
                  +:+ pretty n_bls +:+ ")"))
        else
          inl (corrprods,
               [Warning "Reapplied k7_capture baseline mask to fix unexpected number of baseline labels"])
      else inl (corrprods, [])
  end.

End Init.
End H5Init.

(** ** More concrete inputs *)

Module MoreExamples.
Import Numpy ChunkStore DictChunkStore Examples.

(** Timestamps in whole seconds. *)
#[export] Instance seconds : TelstateSource.Clock := {|
  TelstateSource.time := Z;
  TelstateSource.time_add := Z.add;
  TelstateSource.time_mul := Z.mul;
  TelstateSource.time_of_nat := Z.of_nat
|}.

(** A telescope state with the views of the capture block "1556" and the
    stream "sdp_l0"; only the integration time is immutable. *)
Definition capture (chunk_info : option (gmap string DataSources.array_info))
  : TelstateSource.telstate :=
  TelstateSource.MkTelstate
    ["1556_sdp_l0_"; "1556_"; "sdp_l0_"]
    ["1556_sdp_l0_int_time"; "1556_obs_activity"; "m063_azim"; "1556_";
     "sdp_l0_obs_activity"]
    (λ key, bool_decide (key = "1556_sdp_l0_int_time"))
    (Some 1000%Z) (Some 20%Z) (Some 8%Z) (Some "1556-sdp-l0") chunk_info None.

Definition from_url (url : string) : DataSources.chunk_store := tiled_store.

(** A chunk info without the weights. *)
Definition no_weights_info : gmap string DataSources.array_info :=
  <["correlator_data" := DataSources.ArrayInfo complex64 [4; 2; 1] tfb_chunks]>
  {["flags" := DataSources.ArrayInfo uint8 [4; 2; 1] tfb_chunks]}.

(** The default table of flags, and a selection of two of them. *)
Definition default_flags : H5Select.flags_t :=
  H5Select.MkFlags (Some (zip H5Select.FLAG_NAMES H5Select.FLAG_DESCRIPTIONS)) 0.

Definition cam_and_lost : H5DataV3.names_arg := H5DataV3.NamesStr "cam,data_lost".

(** Four dumps of which the last repeats the third, in a file of one
    channel and one correlation product. *)
Definition stamps : list Z := [10; 20; 30; 30]%Z.

Definition four_dumps : ndarray := Ndarray float32 [4; 1; 1] [5; 7; 9; 9]%Z.

Definition three_kept : H5DataV3.t ndarray :=
  H5DataV3.MkH5DataV3 four_dumps None [] [true; true; true] [true] [true] false.

Definition as_is : LazyIndexer.LazyTransform :=
  LazyIndexer.MkLazyTransform "as_is" (λ d _, Ok d).

(** The data of the first dump of every channel and correlation product. *)
Definition first_dump : list LazyIndexer.dim_keep :=
  [LazyIndexer.KeepIndex 0; LazyIndexer.KeepSlice None].

Definition one_dump : ndarray := Ndarray float32 [1; 1] [5]%Z.

(** The correlation products of three antennas, of which two are in use. *)
Definition bls_ordering : list (string * string) :=
  [("m000h", "m000h"); ("m000h", "m001h"); ("m001h", "m001h"); ("m002h", "m002h")].

Definition two_ants : list string := ["m000"; "m001"].

(** A cache in which only the temperature of the weather station
    resolves. *)
Definition weather_station : SensorCache.t Z :=
  SensorCache.MkSensorCache
    (λ n, if decide (n = "Enviro/air_temperature") then Some 21%Z else None).

(** A chunk of the shape of [block] of another dtype, and a second chunk of
    the dtype of "vis". *)
Definition float_block : ndarray := Ndarray float32 [2; 2; 1] [1; 2; 3; 4]%Z.

Definition newer_block : ndarray := Ndarray complex64 [2; 2; 1] [5; 6; 7; 8]%Z.




End MoreExamples.

(** * Properties *)

(** ** Blocks of a C-ordered array *)

Section NumpyFacts.
Context `{Scalars}.
Import Numpy.

Lemma length_rows n bs (d : list elem) : length (rows n bs d) = n.
Proof. unfold rows. by rewrite length_reshape, length_replicate. Qed.

Lemma rows_blocks n bs (d : list elem) :
  length d = n * bs → blocks_of bs (rows n bs d).
Proof.
  unfold rows, blocks_of. revert d.
  induction n as [|n IH]; intros d Hd; simpl; [constructor|].
  constructor.
  - rewrite length_take. lia.
  - apply IH. rewrite length_drop. lia.
Qed.

Lemma join_rows n bs (d : list elem) :
  length d = n * bs → mjoin (rows n bs d) = d.
Proof.
  intros Hd. unfold rows. apply join_reshape.
  rewrite sum_list_replicate. lia.
Qed.

Lemma rows_join n bs (bl : list (list elem)) :
  length bl = n → blocks_of bs bl → rows n bs (mjoin bl) = bl.
Proof.
  unfold rows, blocks_of. revert n.
  induction bl as [|b bl IH]; intros n Hn Hbl; subst n; [done|].
  inversion_clear Hbl as [|? ? Hb Hbl']. simpl.
  rewrite take_app_length', drop_app_length' by done.
  f_equal. by apply IH.
Qed.

Lemma length_join_blocks bs (bl : list (list elem)) :
  blocks_of bs bl → length (mjoin bl) = length bl * bs.
Proof.
  unfold blocks_of. induction 1 as [|b bl Hb _ IH]; [done|].
  simpl. rewrite length_app. lia.
Qed.

Lemma blocks_of_app bs (k l : list (list elem)) :
  blocks_of bs k → blocks_of bs l → blocks_of bs (k ++ l).
Proof. unfold blocks_of. apply Forall_app_2. Qed.

Lemma blocks_of_take bs n (l : list (list elem)) :
  blocks_of bs l → blocks_of bs (take n l).
Proof. unfold blocks_of. apply Forall_take. Qed.

Lemma blocks_of_fmap bs bs' (f : list elem → list elem) (l : list (list elem)) :
  blocks_of bs l → (∀ b, length b = bs → length (f b) = bs') →
  blocks_of bs' (f <$> l).
Proof.
  unfold blocks_of. intros Hl Hf.
  induction Hl as [|b l Hb _ IH]; simpl; constructor; auto.
Qed.

Lemma blocks_of_drop bs n (l : list (list elem)) :
  blocks_of bs l → blocks_of bs (drop n l).
Proof. unfold blocks_of. apply Forall_drop. Qed.


Lemma Forall_zip_with_both {A B C} (f : A → B → C) (P : C → Prop)
    (Q : A → Prop) (R : B → Prop) l k :
  (∀ x y, Q x → R y → P (f x y)) →
  Forall Q l → Forall R k → Forall P (zip_with f l k).
Proof.
  intros Hf Hl. revert k.
  induction Hl as [|x l Hx _ IH]; intros k Hk; [constructor|].
  destruct Hk as [|y k Hy Hk]; simpl; [constructor|].
  constructor; [by apply Hf | by apply IH].
Qed.

Lemma fmap_zip_with_cancel {A B} (g : A → B) (f : A → B → A)
    (Q : A → Prop) (R : B → Prop) l k :
  (∀ x y, Q x → R y → g (f x y) = y) →
  length l = length k → Forall Q l → Forall R k →
  g <$> zip_with f l k = k.
Proof.
  intros Hf Hlen Hl. revert k Hlen.
  induction Hl as [|x l Hx _ IH]; intros [|y k] Hlen Hk; try done.
  inversion_clear Hk as [|? ? Hy Hk']. simpl in *.
  f_equal; [by apply Hf | apply IH; [lia | done]].
Qed.

Lemma size_cons n sh : size (n :: sh) = n * size sh.
Proof. done. Qed.

(** The blocks of an array after a window has been overwritten. *)
Lemma put_window_blocks sh w n lo cnt (d v : list elem) :
  (∀ b x, length b = size sh → length x = size (window_shape w) →
          length (put_window sh w b x) = size sh) →
  lo + cnt ≤ n →
  length d = n * size sh →
  length v = cnt * size (window_shape w) →
  let bs := rows n (size sh) d in
  let nb := take lo bs
            ++ zip_with (put_window sh w) (take cnt (drop lo bs))
                        (rows cnt (size (window_shape w)) v)
            ++ drop (lo + cnt) bs in
  length nb = n ∧ blocks_of (size sh) nb.
Proof.
  intros IH Hfit Hd Hv bs nb.
  assert (Hbs : blocks_of (size sh) bs) by by apply rows_blocks.
  assert (Hn : length bs = n) by apply length_rows.
  split.
  - unfold nb. rewrite !length_app, length_zip_with, !length_take, !length_drop,
      length_rows. lia.
  - unfold nb. repeat apply blocks_of_app.
    + by apply blocks_of_take.
    + eapply (Forall_zip_with_both _ _ (λ b, length b = size sh)
                (λ x, length x = size (window_shape w))).
      * intros b x Hb Hx. by apply IH.
      * by apply blocks_of_take, blocks_of_drop.
      * by apply rows_blocks.
    + by apply blocks_of_drop.
Qed.

Lemma length_put_window sh w (d v : list elem) :
  window_fits sh w →
  length d = size sh → length v = size (window_shape w) →
  length (put_window sh w d v) = size sh.
Proof.
  intros Hfit. revert d v.
  induction Hfit as [|n [lo cnt] sh w Hn Hfit IH]; intros d v Hd Hv; [done|].
  simpl in *.
  destruct (put_window_blocks sh w n lo cnt d v IH Hn Hd Hv) as [Hlen Hbl].
  by rewrite (length_join_blocks _ _ Hbl), Hlen.
Qed.

Lemma length_take_window sh w (d : list elem) :
  window_fits sh w → length d = size sh →
  length (take_window sh w d) = size (window_shape w).
Proof.
  intros Hfit. revert d.
  induction Hfit as [|n [lo cnt] sh w Hn Hfit IH]; intros d Hd; [done|].
  simpl in *.
  assert (Hbs : blocks_of (size sh) (rows n (size sh) d)) by by apply rows_blocks.
  rewrite (length_join_blocks (size (window_shape w))).
  - rewrite length_fmap, length_take, length_drop, length_rows.
    by rewrite Nat.min_l by lia.
  - apply (blocks_of_fmap (size sh)).
    + by apply blocks_of_take, blocks_of_drop.
    + intros b Hb. by apply IH.
Qed.

(** Reading a window back after it has been written gives what was
    written. *)
Lemma take_put_window sh w (d v : list elem) :
  window_fits sh w →
  length d = size sh → length v = size (window_shape w) →
  take_window sh w (put_window sh w d v) = v.
Proof.
  intros Hfit. revert d v.
  induction Hfit as [|n [lo cnt] sh w Hn Hfit IH]; intros d v Hd Hv; [done|].
  simpl in *.
  destruct (put_window_blocks sh w n lo cnt d v
              (λ b x, length_put_window sh w b x Hfit) Hn Hd Hv) as [Hlen Hbl].
  rewrite rows_join by done.
  assert (Hbs : blocks_of (size sh) (rows n (size sh) d)) by by apply rows_blocks.
  rewrite drop_app_length' by (rewrite length_take, length_rows; lia).
  rewrite take_app_length'
    by (rewrite length_zip_with, length_take, length_drop, !length_rows; lia).
  rewrite (fmap_zip_with_cancel _ _ (λ b, length b = size sh)
             (λ x, length x = size (window_shape w))).
  - by apply join_rows.
  - intros b x Hb Hx. by apply IH.
  - rewrite length_take, length_drop, !length_rows. lia.
  - by apply blocks_of_take, blocks_of_drop.
  - by apply rows_blocks.
Qed.


(** An element of a window is the element of the array at the shifted
    index. *)
Lemma item_take_window sh w (d : list elem) idx :
  window_fits sh w → length d = size sh →
  Forall2 (λ lw i, i < lw.2) w idx →
  item_at (window_shape w) idx (take_window sh w d) = item_at sh (shift w idx) d.
Proof.
  intros Hfit. revert d idx.
  induction Hfit as [|n [lo cnt] sh w Hn Hfit IH]; intros d idx Hd Hidx.
  { by inversion Hidx. }
  inversion Hidx as [|? i ? idx' Hi Hidx']; subst. simpl in *.
  set (bs := rows n (size sh) d) in *.
  assert (Hbs : blocks_of (size sh) bs) by by apply rows_blocks.
  rewrite rows_join.
  - rewrite list_lookup_fmap, lookup_take_lt, lookup_drop by lia.
    destruct (bs !! (lo + i)) as [b|] eqn:Hb; [|done]. simpl.
    apply IH; [|done]. eapply Forall_lookup_1 in Hbs; eauto.
  - rewrite length_fmap, length_take, length_drop. unfold bs.
    rewrite length_rows. lia.
  - apply (blocks_of_fmap (size sh)).
    + by apply blocks_of_take, blocks_of_drop.
    + intros b Hb. by apply length_take_window.
Qed.

(** An element of the windows holds, after the write, the element of the
    written value at the index counted from the start of the windows. *)
Lemma item_put_window_inside sh w (d v : list elem) idx :
  window_fits sh w →
  length d = size sh → length v = size (window_shape w) →
  Forall2 (λ lw i, i < lw.2) w idx →
  item_at sh (shift w idx) (put_window sh w d v) = item_at (window_shape w) idx v.
Proof.
  intros Hfit Hd Hv Hidx.
  rewrite <- item_take_window by (done || by apply length_put_window).
  by rewrite take_put_window.
Qed.

(** A value that already has the shape of the target is broadcast to
    itself. *)
Lemma broadcast_aligned_same sh (v : list elem) :
  length v = size sh → broadcast_aligned sh sh v = Some v.
Proof.
  revert v. induction sh as [|n sh IH]; intros v Hv; [done|].
  simpl in *. rewrite decide_True by done.
  assert (Hbs : blocks_of (size sh) (rows n (size sh) v)) by by apply rows_blocks.
  rewrite (proj2 (mapM_Some _ _ (rows n (size sh) v))).
  - simpl. by rewrite join_rows.
  - apply Forall2_same_length_lookup_2; [done|].
    intros i b b' Hb Hb'. simplify_eq. apply IH.
    eapply Forall_lookup_1 in Hbs; eauto.
Qed.

Lemma broadcast_to_same sh (v : list elem) :
  length v = size sh → broadcast_to sh sh v = Some v.
Proof.
  intros Hv. unfold broadcast_to. rewrite decide_True by done.
  rewrite Nat.sub_diag. by apply broadcast_aligned_same.
Qed.

End NumpyFacts.

(** ** Requests that pass the validation *)

Section RequestFacts.
Context `{Scalars}.
Import Numpy ChunkStore.

Lemma clip_in_range n i : (0 ≤ i ≤ Z.of_nat n)%Z → clip n i = Z.to_nat i.
Proof.
  intros Hi. unfold clip.
  destruct (i <? 0)%Z eqn:E; [apply Z.ltb_lt in E; lia|].
  by rewrite Z.min_l by lia.
Qed.

Lemma axis_window_in_bounds n s :
  in_bounds n s = true → axis_window n s = exact_window s ∧ (exact_window s).1 + (exact_window s).2 ≤ n.
Proof.
  unfold in_bounds. rewrite !andb_true_iff, !bool_decide_eq_true.
  intros [[H0 H1] H2]. unfold axis_window, exact_window.
  rewrite !clip_in_range by lia. simpl. split; [|lia].
  f_equal. lia.
Qed.

(** In-bounds ranges select exactly the windows they name. *)
Lemma windows_in_bounds sh sl :
  all_in_bounds sh sl = true →
  windows sh sl = Some (exact_window <$> sl)
  ∧ window_fits sh (exact_window <$> sl)
  ∧ shape_as_Z (window_shape (exact_window <$> sl)) = implied_shape sl.
Proof.
  revert sl. induction sh as [|n sh IH]; intros [|s sl] Hb; try done.
  { repeat split. constructor. }
  simpl in Hb. apply andb_true_iff in Hb as [Hs Hb].
  destruct (IH _ Hb) as (Hw & Hfit & Hsh).
  destruct (axis_window_in_bounds _ _ Hs) as [Hax Hle].
  repeat split.
  - simpl. by rewrite Hw, Hax.
  - by constructor.
  - unfold shape_as_Z, window_shape, implied_shape in *. simpl. f_equal; [|done].
    unfold in_bounds in Hs.
    rewrite !andb_true_iff, !bool_decide_eq_true in Hs. lia.
Qed.

End RequestFacts.

(** ** The in-memory chunk store *)

Section DictChunkStoreFacts.
Context `{Scalars} `{Wording}.
Import Numpy ChunkStore DictChunkStore.

Lemma shape_as_Z_inj sh sh' : shape_as_Z sh = shape_as_Z sh' → sh = sh'.
Proof.
  unfold shape_as_Z. revert sh'.
  induction sh as [|n sh IH]; intros [|n' sh'] Heq; simplify_eq/=;
    f_equal; auto with lia.
Qed.

Lemma declared_shape_known self a l :
  arrays self !! a = Some l → declared_shape self a = Some (shape (heap self l)).
Proof. intros Ha. unfold declared_shape. by rewrite Ha. Qed.

Lemma declared_shape_unknown self a :
  arrays self !! a = None → declared_shape self a = None.
Proof. intros Ha. unfold declared_shape. by rewrite Ha. Qed.

(** What a request that [chunk_metadata] accepts looks like. *)
Lemma chunk_metadata_Ok declared a r dt chunk res :
  chunk_metadata declared a r dt chunk = Ok res →
  forallb unit_step r = true
  ∧ (∀ sh, declared = Some sh → all_in_bounds sh r = true)
  ∧ (∀ c, chunk = Some c → shape_as_Z (shape c) = implied_shape r)
  ∧ res.1 = (a, r).
Proof.
  unfold chunk_metadata. intros Hm.
  destruct (forallb unit_step r); [|done]. simpl in Hm.
  assert (Hb : ∀ sh, declared = Some sh → all_in_bounds sh r = true).
  { intros sh ->. by destruct (all_in_bounds sh r). }
  assert (Hrest : match chunk with
                  | None => Ok ((a, r), implied_shape r)
                  | Some c =>
                      if decide (shape_as_Z (shape c) ≠ implied_shape r)
                      then Raise (StoreError BadChunk (metadata_text (a, r)))
                      else match dt with
                           | Some d =>
                               if decide (dtype_of c ≠ d)
                               then Raise (StoreError BadChunk (metadata_text (a, r)))
                               else Ok ((a, r), shape_as_Z (shape c))
                           | None => Ok ((a, r), shape_as_Z (shape c))
                           end
                  end = Ok res).
  { destruct declared as [sh|]; [|done]. by destruct (all_in_bounds sh r). }
  clear Hm. repeat split; [done|..].
  - intros c ->.
    destruct (decide (shape_as_Z (shape c) ≠ implied_shape r)) as [|Hs]; [done|].
    by apply dec_stable in Hs.
  - destruct chunk as [c|]; [|by simplify_eq].
    destruct (decide (shape_as_Z (shape c) ≠ implied_shape r)); [done|].
    destruct dt as [d|]; [destruct (decide (dtype_of c ≠ d)); [done|]|];
      by simplify_eq.
Qed.

(** Every failure of [chunk_metadata] is a [BadChunk]. *)
Lemma chunk_metadata_fails declared a r dt chunk e :
  chunk_metadata declared a r dt chunk = Raise e →
  e = StoreError BadChunk (metadata_text (a, r)).
Proof.
  unfold chunk_metadata. intros Hm.
  repeat (case_match; simplify_eq/=; try done).
Qed.

Lemma chunk_metadata_read self a l r dt :
  valid_request self a l r →
  chunk_metadata (declared_shape self a) a r (Some dt) None
  = Ok ((a, r), implied_shape r).
Proof.
  intros (Ha & Hu & Hb). unfold chunk_metadata.
  rewrite (declared_shape_known _ _ _ Ha), Hu, Hb. done.
Qed.

Lemma chunk_metadata_write self a l r x :
  valid_request self a l r →
  shape_as_Z (shape x) = implied_shape r →
  chunk_metadata (declared_shape self a) a r None (Some x)
  = Ok ((a, r), shape_as_Z (shape x)).
Proof.
  intros (Ha & Hu & Hb) Hx. unfold chunk_metadata.
  rewrite (declared_shape_known _ _ _ Ha), Hu, Hb. simpl.
  by rewrite decide_False by (by intros []).
Qed.

(** A valid request for the stored dtype is answered with the view on the
    windows the ranges name. *)
Lemma get_valid self a l r :
  valid_request self a l r →
  get self a r (dtype_of (heap self l)) = Ok (View l (exact_window <$> r)).
Proof.
  intros Hv. unfold get. rewrite (chunk_metadata_read _ _ _ _ _ Hv).
  destruct Hv as (Ha & Hu & Hb). simpl.
  unfold lookup_array. rewrite Ha. simpl. unfold getitem.
  destruct (windows_in_bounds _ _ Hb) as (-> & _ & _). simpl.
  by rewrite decide_False by (by intros []).
Qed.

Lemma heap_written_eq self l r x :
  heap (written self l r x) l
  = Ndarray (dtype_of (heap self l)) (shape (heap self l))
      (put_window (shape (heap self l)) (exact_window <$> r)
                  (data (heap self l)) (data x)).
Proof. unfold written. simpl. apply fn_lookup_insert. Qed.

Lemma heap_written_ne self l l' r x :
  l ≠ l' → heap (written self l r x) l' = heap self l'.
Proof. intros Hne. unfold written. simpl. by apply fn_lookup_insert_ne. Qed.

Lemma put_valid self a l r x :
  valid_request self a l r →
  well_formed x →
  shape_as_Z (shape x) = implied_shape r →
  dtype_of x = dtype_of (heap self l) →
  put self a r x = (written self l r x, Ok ()).
Proof.
  intros Hv Hx Hsh Hdt. unfold put.
  rewrite (chunk_metadata_write _ _ _ _ _ Hv Hsh), Hdt, (get_valid _ _ _ _ Hv).
  destruct Hv as (Ha & Hu & Hb).
  destruct (windows_in_bounds _ _ Hb) as (_ & _ & Hws).
  rewrite <- Hsh in Hws. apply shape_as_Z_inj in Hws.
  unfold assign. simpl. rewrite Hws, broadcast_to_same by done.
  by rewrite decide_True by done.
Qed.

Lemma valid_request_written self a l r l' r' x :
  valid_request self a l r → valid_request (written self l' r' x) a l r.
Proof.
  intros (Ha & Hu & Hb). repeat split; [done..|].
  destruct (decide (l' = l)) as [->|Hne].
  - by rewrite heap_written_eq.
  - by rewrite heap_written_ne.
Qed.

(** Whatever [put] does, it does to the heap only: the error map and the
    dict of names stay. *)
Lemma put_keeps_names self a r x :
  arrays (put self a r x).1 = arrays self
  ∧ error_map (put self a r x).1 = error_map self.
Proof.
  unfold put, assign. repeat (case_match; simpl; try done).
Qed.

(** A [put] that succeeds had a valid request for a chunk of the shape of
    the ranges and of the dtype of the stored array. *)
Lemma put_Ok_inv self a r x self' :
  put self a r x = (self', Ok ()) →
  ∃ l, valid_request self a l r
       ∧ shape_as_Z (shape x) = implied_shape r
       ∧ dtype_of x = dtype_of (heap self l).
Proof.
  unfold put. intros Hput.
  destruct (chunk_metadata (declared_shape self a) a r None (Some x))
    as [res|e] eqn:Hm; [|by simplify_eq].
  apply chunk_metadata_Ok in Hm as (Hu & Hb & Hs & _).
  destruct (get self a r (dtype_of x)) as [v|e] eqn:Hg; [|by simplify_eq].
  clear Hput. unfold get in Hg.
  destruct (chunk_metadata (declared_shape self a) a r (Some (dtype_of x)) None)
    as [[name sh]|e]; [|done]. simpl in Hg.
  unfold lookup_array in Hg.
  destruct (arrays self !! a) as [l|] eqn:Ha.
  - exists l. split; [|split; [by apply Hs|]].
    + repeat split; [done..|].
      apply Hb. by apply declared_shape_known.
    + simpl in Hg. unfold getitem in Hg.
      destruct (windows (shape (heap self l)) r) as [w|]; simpl in Hg.
      * destruct (decide (dtype_of x ≠ dtype_of (heap self l))) as [|Hd]; [done|].
        by apply dec_stable in Hd.
      * by destruct (lookup_error (error_map self) IndexError).
  - simpl in Hg. by destruct (lookup_error (error_map self) KeyError).
Qed.

(** C1 (round trip): for every store, every array name [a], every tuple [r]
    of in-bounds unit-step ranges and every array [x] whose shape is the
    shape of [r] and whose dtype is the dtype of the stored array,
    [put a r x] succeeds and a following [get a r x.dtype] returns data
    equal to [x]. *)
Theorem put_get_roundtrip self a l r x :
  valid_request self a l r →
  well_formed (heap self l) →
  well_formed x →
  shape_as_Z (shape x) = implied_shape r →
  dtype_of x = dtype_of (heap self l) →
  ∃ self' v,
    put self a r x = (self', Ok ())
    ∧ get self' a r (dtype_of x) = Ok v
    ∧ read self' v = x.
Proof.
  intros Hv Ha Hx Hsh Hdt.
  exists (written self l r x), (View l (exact_window <$> r)).
  split; [by apply put_valid|].
  pose proof (valid_request_written self a l r l r x Hv) as Hv'.
  pose proof (get_valid _ _ _ _ Hv') as Hget.
  destruct Hv as (Hl & Hu & Hb).
  destruct (windows_in_bounds _ _ Hb) as (_ & Hfit & Hws).
  rewrite <- Hsh in Hws. apply shape_as_Z_inj in Hws.
  split.
  - rewrite Hdt. rewrite <- Hget. by rewrite heap_written_eq.
  - unfold read. simpl base. rewrite heap_written_eq. simpl.
    rewrite take_put_window; [|done..|by rewrite Hws].
    rewrite Hws, <- Hdt. by destruct x.
Qed.

(** C2 (direct indexing): for a stored array and in-bounds unit-step ranges,
    [get] with the stored dtype returns exactly what indexing the stored
    array with those ranges gives: the same view, of the shape of the
    ranges, whose element at an index is the element of the stored array at
    that index counted from the starts of the ranges. *)
Theorem get_direct_indexing self a l r dt :
  valid_request self a l r →
  well_formed (heap self l) →
  dt = dtype_of (heap self l) →
  ∃ v,
    get self a r dt = Ok v
    ∧ getitem self l r = Ok v
    ∧ dtype_of (read self v) = dt
    ∧ shape_as_Z (shape (read self v)) = implied_shape r
    ∧ ∀ idx, Forall2 (λ lw i, i < lw.2) (exact_window <$> r) idx →
        item (read self v) idx
        = item (heap self l) (shift (exact_window <$> r) idx).
Proof.
  intros Hv Ha ->. exists (View l (exact_window <$> r)).
  split; [by apply get_valid|].
  destruct Hv as (Hl & Hu & Hb).
  destruct (windows_in_bounds _ _ Hb) as (Hw & Hfit & Hws).
  repeat split; [|done|].
  - unfold getitem. by rewrite Hw.
  - intros idx Hidx. unfold item, read. simpl. by apply item_take_window.
Qed.

(** C3 (rejected reads): [get] fails with [BadChunk] whenever a requested
    range has a non-unit step; it fails with [BadChunk] whenever the stored
    array has another dtype than the requested one; and when the data of a
    valid request has another dtype, the message names the chunk, the
    requested dtype and the actual dtype. *)
Theorem get_bad_chunk self a r dt :
  (forallb unit_step r = false → fails_with BadChunk (get self a r dt))
  ∧ (∀ l, arrays self !! a = Some l → dtype_of (heap self l) ≠ dt →
       fails_with BadChunk (get self a r dt))
  ∧ (∀ l, valid_request self a l r → dtype_of (heap self l) ≠ dt →
       get self a r dt
       = Raise (StoreError BadChunk
                  ("Chunk " +:+ repr_chunk (a, r) +:+ ": requested dtype "
                   +:+ dtype_name dt +:+ " differs from actual dtype "
                   +:+ dtype_name (dtype_of (heap self l))))).
Proof.
  assert (Hvalid : ∀ l, valid_request self a l r → dtype_of (heap self l) ≠ dt →
    get self a r dt
    = Raise (StoreError BadChunk
               ("Chunk " +:+ repr_chunk (a, r) +:+ ": requested dtype "
                +:+ dtype_name dt +:+ " differs from actual dtype "
                +:+ dtype_name (dtype_of (heap self l))))).
  { intros l Hv Hdt. unfold get. rewrite (chunk_metadata_read _ _ _ _ _ Hv).
    destruct Hv as (Ha & Hu & Hb). simpl.
    unfold lookup_array. rewrite Ha. simpl. unfold getitem.
    destruct (windows_in_bounds _ _ Hb) as (-> & _ & _). simpl.
    by rewrite decide_True by (by intros ->). }
  repeat split; [| |done].
  - intros Hu. unfold get, chunk_metadata. by rewrite Hu.
  - intros l Ha Hdt.
    destruct (chunk_metadata (declared_shape self a) a r (Some dt) None)
      as [res|e] eqn:Hm.
    + apply chunk_metadata_Ok in Hm as (Hu & Hb & _ & _).
      assert (Hv : valid_request self a l r).
      { repeat split; [done..|]. apply Hb. by apply declared_shape_known. }
      by rewrite (Hvalid l Hv Hdt).
    + unfold get. rewrite Hm. simpl.
      by apply chunk_metadata_fails in Hm as ->.
Qed.

(** Every exception of [put] is raised before the array is touched. *)
Lemma put_Raise self a r x self' e :
  put self a r x = (self', Raise e) → self' = self.
Proof.
  unfold put, assign. intros Hput.
  repeat (case_match; simplify_eq/=; try done).
Qed.

(** The store of [init] translates the two exceptions a dict of arrays can
    raise into [ChunkNotFound]. *)
Lemma init_translates kwargs objects name {A} b msg :
  b = KeyError ∨ b = IndexError →
  fails_with ChunkNotFound
    (standard_errors (A := A) (error_map (init kwargs objects)) name
       (Raise (Builtin b msg))).
Proof. by intros [-> | ->]. Qed.

(** C4, amended (rejected writes): on a store built by the constructor,
    [put] fails with [ChunkNotFound] when the array name is unknown and the
    request passes the validation (unit-step ranges, a chunk of the shape of
    the ranges), the [KeyError] and [IndexError] of the backend being
    translated to [ChunkNotFound] by the error map of the constructor; and it
    fails with [BadChunk] whenever the shape of the chunk is not the shape of
    the ranges, for known and unknown names alike. *)
Theorem put_unknown_or_misshapen kwargs objects a r x :
  (kwargs !! a = None → forallb unit_step r = true →
     shape_as_Z (shape x) = implied_shape r →
     fails_with ChunkNotFound (put (init kwargs objects) a r x).2)
  ∧ (shape_as_Z (shape x) ≠ implied_shape r →
     fails_with BadChunk (put (init kwargs objects) a r x).2)
  ∧ error_map (init kwargs objects)
    = [(KeyError, ChunkNotFound); (IndexError, ChunkNotFound)].
Proof.
  repeat split.
  - intros Ha Hu Hsh. unfold put, get, chunk_metadata.
    rewrite declared_shape_unknown by done. rewrite Hu. simpl.
    rewrite decide_False by (by intros []). simpl.
    unfold lookup_array. simpl. by rewrite Ha.
  - intros Hsh. unfold put.
    destruct (chunk_metadata (declared_shape (init kwargs objects) a) a r None
                (Some x)) as [res|e] eqn:Hm.
    + apply chunk_metadata_Ok in Hm as (_ & _ & Hs & _). by destruct Hsh, (Hs x).
    + by apply chunk_metadata_fails in Hm as ->.
Qed.

(** C5 (failed writes): whenever [put] fails with [ChunkNotFound] or
    [BadChunk], the store is exactly what it was before the call, the names
    and every array, so that the same call can be made again and fails in
    the same way. *)
Theorem put_failure_no_mutation self a r x self' res :
  put self a r x = (self', res) →
  fails_with ChunkNotFound res ∨ fails_with BadChunk res →
  self' = self ∧ put self' a r x = (self', res).
Proof.
  intros Hput Hfail.
  assert (self' = self) as ->; [|done].
  destruct res as [[]|e]; [by destruct Hfail|].
  by eapply put_Raise.
Qed.


End DictChunkStoreFacts.

(** ** Visibilities, flags and weights *)

Section DataSourcesFacts.
Context `{Scalars} `{Wording}.
Import DataSources.



Lemma VisFlagsWeights_init_Ok v f w n obj :
  VisFlagsWeights_init v f w n = Ok obj →
  obj = MkVisFlagsWeights v f w n ∧ same_shapes obj.
Proof.
  unfold VisFlagsWeights_init, same_shapes. intros Hinit.
  destruct (bool_decide (da_shape v = da_shape f)) eqn:E1; [|done].
  destruct (bool_decide (da_shape f = da_shape w)) eqn:E2; [|done].
  apply bool_decide_eq_true in E1, E2. by simplify_eq/=.
Qed.



End DataSourcesFacts.

(** ** The weights of a version 3 file *)

Section WeightsFacts.
Context `{Scalars} `{Wording} {D : Type}.
Import Numpy LazyIndexer H5DataV3.






End WeightsFacts.

(** ** Sensor lookups with fallback *)

Section SensorFacts.
Context `{Wording} {V : Type}.
Import SensorCache.

Lemma try_names_skip (self : SensorCache.t V) sensor_type all pre names :
  unresolved self pre →
  try_names self sensor_type all (pre ++ names)
  = try_names self sensor_type all names.
Proof.
  unfold unresolved. induction 1 as [|n pre Hn _ IH]; [done|].
  simpl. unfold get. by rewrite Hn.
Qed.

(** C8 (fallback): [get_with_fallback] goes through the candidate names in
    the given order and returns the value of the first one that resolves;
    when no candidate resolves it fails with the lookup error of the sensor
    cache. *)
Theorem get_with_fallback_first (self : SensorCache.t V) sensor_type names :
  (∀ pre name post v,
     names = pre ++ name :: post →
     unresolved self pre →
     resolve self name = Some v →
     get_with_fallback self sensor_type names = Ok v)
  ∧ (unresolved self names →
     get_with_fallback self sensor_type names
     = Raise (Builtin KeyError (lookup_text sensor_type names))).
Proof.
  split.
  - intros pre name post v -> Hpre Hname. unfold get_with_fallback.
    rewrite try_names_skip by done. simpl. unfold get. by rewrite Hname.
  - intros Hall. unfold get_with_fallback.
    rewrite <- (app_nil_r names) at 2. by rewrite try_names_skip.
Qed.

(** The temperature is the air temperature of the weather station when
    that sensor resolves, else the one of the telescope state, and a lookup
    failure when neither resolves. *)
Lemma temperature_fallback (sensor : SensorCache.t V) :
  H5DataV3.temperature sensor
  = match resolve sensor "Enviro/air_temperature" with
    | Some v => Ok v
    | None =>
        match resolve sensor "TelescopeState/anc_weather_temperature" with
        | Some v => Ok v
        | None =>
            Raise (Builtin KeyError
                     (lookup_text "temperature"
                        ["Enviro/air_temperature";
                         "TelescopeState/anc_weather_temperature"]))
        end
    end.
Proof.
  unfold H5DataV3.temperature, get_with_fallback. simpl. unfold get.
  by repeat case_match.
Qed.

End SensorFacts.

(** ** Alignment of categorical data *)

Section CategoricalFacts.
Context {V : Type}.
Import CategoricalData.

Lemma nearer_self y r : nearer y r y = false.
Proof.
  unfold nearer. apply orb_false_iff. split.
  - apply Z.ltb_ge. lia.
  - apply andb_false_iff.
    destruct (Z.abs (r - y) =? Z.abs (y - y))%Z eqn:E; [|by left].
    right. apply Z.eqb_eq in E. apply Z.ltb_ge. lia.
Qed.

Lemma nearer_exact y best : best ≠ y → nearer y y best = true.
Proof.
  intros Hne. unfold nearer. apply orb_true_iff. left. apply Z.ltb_lt. lia.
Qed.

(** A boundary that is among the candidates is its own nearest one. *)
Lemma nearest_from_fix y best l :
  best = y ∨ y ∈ l → nearest_from y best l = y.
Proof.
  revert best. induction l as [|r l IH]; intros best [Hb|Hl].
  - done.
  - by apply elem_of_nil in Hl.
  - subst best. simpl. rewrite nearer_self. apply IH. by left.
  - simpl. apply elem_of_cons in Hl as [<-|Hl]; apply IH; [|by right].
    left. destruct (decide (best = y)) as [->|Hne].
    + by destruct (nearer y y y).
    + by rewrite nearer_exact.
Qed.

Lemma nearest_from_elem x best l : nearest_from x best l ∈ best :: l.
Proof.
  revert best. induction l as [|r l IH]; intros best; simpl.
  - by apply list_elem_of_singleton.
  - specialize (IH (if nearer x r best then r else best)).
    rewrite !elem_of_cons in *. destruct IH as [->|IH]; [|by auto].
    destruct (nearer x r best); auto.
Qed.

(** Snapping a snapped boundary leaves it where it is. *)
Lemma nearest_idempotent ref x : nearest ref (nearest ref x) = nearest ref x.
Proof.
  destruct ref as [|r l]; [done|]. simpl.
  apply nearest_from_fix.
  pose proof (nearest_from_elem x r l) as Hin.
  apply elem_of_cons in Hin as [->|Hin]; [by left|by right].
Qed.

Lemma map_but_last_idempotent f l :
  (∀ x, f (f x) = f x) → map_but_last f (map_but_last f l) = map_but_last f l.
Proof.
  intros Hf. induction l as [|b l IH]; [done|].
  destruct l as [|c l]; [done|].
  change (map_but_last f (b :: c :: l)) with (f b :: map_but_last f (c :: l)).
  destruct (map_but_last f (c :: l)) as [|c' l'] eqn:E.
  { by destruct l. }
  change (map_but_last f (f b :: c' :: l'))
    with (f (f b) :: map_but_last f (c' :: l')).
  by rewrite Hf, IH.
Qed.

Lemma map_internal_nearest_idempotent ref ev :
  map_internal (nearest ref) (map_internal (nearest ref) ev)
  = map_internal (nearest ref) ev.
Proof.
  destruct ev as [|e0 ev]; [done|]. simpl. f_equal.
  apply map_but_last_idempotent, nearest_idempotent.
Qed.


(** The alignments [H5DataV3] makes of the labels and of the targets to the
    scans are idempotent. *)
Lemma align_label_idempotent (label scan : CategoricalData.t V) :
  H5DataV3.align_label (H5DataV3.align_label label scan) scan
  = H5DataV3.align_label label scan.
Proof.
  unfold H5DataV3.align_label, align. simpl.
  by rewrite map_internal_nearest_idempotent.
Qed.

Lemma align_target_idempotent (target scan : CategoricalData.t V) :
  H5DataV3.align_target (H5DataV3.align_target target scan) scan
  = H5DataV3.align_target target scan.
Proof.
  unfold H5DataV3.align_target, align. simpl.
  by rewrite map_internal_nearest_idempotent.
Qed.

End CategoricalFacts.

(** Scenario B: the boundary 3 moves to 4, and the boundary 7, as far from 4
    as from 10, moves to the earlier one. *)
Example align_scenario_B :
  CategoricalData.align
    (CategoricalData.MkCategoricalData ["slew"; "track"; "slew"] [0; 3; 7; 10]%Z)
    [0; 4; 10]%Z
  = CategoricalData.MkCategoricalData ["slew"; "track"; "slew"] [0; 4; 4; 10]%Z.
Proof. reflexivity. Qed.

(** ** The scenarios of the specification on concrete inputs, and the
    inputs on which a statement does not hold as it is written *)

Section Scenarios.
Import Numpy ChunkStore DictChunkStore Examples.

(** Writing a block of "vis" and reading it back. *)
Lemma put_get_roundtrip_witness :
  valid_request vis_store "vis" 0 block
  ∧ well_formed (heap vis_store 0)
  ∧ well_formed new_block
  ∧ shape_as_Z (shape new_block) = implied_shape block
  ∧ dtype_of new_block = dtype_of (heap vis_store 0)
  ∧ ∃ self' v,
      put vis_store "vis" block new_block = (self', Ok ())
      ∧ get self' "vis" block (dtype_of new_block) = Ok v
      ∧ read self' v = new_block.
Proof.
  assert (Hv : valid_request vis_store "vis" 0 block)
    by (repeat split; vm_compute; reflexivity).
  assert (Ha : well_formed (heap vis_store 0)) by reflexivity.
  assert (Hx : well_formed new_block) by reflexivity.
  assert (Hs : shape_as_Z (shape new_block) = implied_shape block) by reflexivity.
  assert (Hd : dtype_of new_block = dtype_of (heap vis_store 0)) by reflexivity.
  repeat (split; [assumption|]).
  exact (put_get_roundtrip vis_store "vis" 0 block new_block Hv Ha Hx Hs Hd).
Defined.

(** Scenario A: [get] of the block (1:3, 0:2, 0:1) of "vis". *)
Lemma get_direct_indexing_witness :
  valid_request vis_store "vis" 0 block
  ∧ well_formed (heap vis_store 0)
  ∧ complex64 = dtype_of (heap vis_store 0)
  ∧ ∃ v,
      get vis_store "vis" block complex64 = Ok v
      ∧ getitem vis_store 0 block = Ok v
      ∧ dtype_of (read vis_store v) = complex64
      ∧ shape_as_Z (shape (read vis_store v)) = implied_shape block
      ∧ ∀ idx, Forall2 (λ lw i, i < lw.2) (exact_window <$> block) idx →
          item (read vis_store v) idx
          = item (heap vis_store 0) (shift (exact_window <$> block) idx).
Proof.
  assert (Hv : valid_request vis_store "vis" 0 block)
    by (repeat split; vm_compute; reflexivity).
  assert (Ha : well_formed (heap vis_store 0)) by reflexivity.
  assert (Hd : complex64 = dtype_of (heap vis_store 0)) by reflexivity.
  repeat (split; [assumption|]).
  exact (get_direct_indexing vis_store "vis" 0 block complex64 Hv Ha Hd).
Defined.

Example get_scenario_A :
  ∃ v, get vis_store "vis" block complex64 = Ok v
       ∧ read vis_store v = Ndarray complex64 [2; 2; 1] [20; 21; 30; 31]%Z.
Proof. eexists. split; vm_compute; reflexivity. Qed.

(** Scenario C: a read of every second dump, and a read as float32 of
    complex64 data. *)
Lemma get_bad_chunk_witness :
  forallb unit_step strided = false
  ∧ arrays vis_store !! "vis" = Some 0
  ∧ valid_request vis_store "vis" 0 block
  ∧ dtype_of (heap vis_store 0) ≠ float32
  ∧ fails_with BadChunk (get vis_store "vis" strided complex64)
  ∧ fails_with BadChunk (get vis_store "vis" strided float32)
  ∧ get vis_store "vis" block float32
    = Raise (StoreError BadChunk
               ("Chunk " +:+ repr_chunk ("vis", block) +:+ ": requested dtype "
                +:+ dtype_name float32 +:+ " differs from actual dtype "
                +:+ dtype_name (dtype_of (heap vis_store 0)))).
Proof.
  assert (Hu : forallb unit_step strided = false) by reflexivity.
  assert (Hl : arrays vis_store !! "vis" = Some 0) by (vm_compute; reflexivity).
  assert (Hv : valid_request vis_store "vis" 0 block)
    by (repeat split; vm_compute; reflexivity).
  assert (Hd : dtype_of (heap vis_store 0) ≠ float32) by discriminate.
  repeat (split; [assumption|]).
  split; [|split].
  - exact (proj1 (get_bad_chunk vis_store "vis" strided complex64) Hu).
  - exact (proj1 (proj2 (get_bad_chunk vis_store "vis" strided float32)) 0 Hl Hd).
  - exact (proj2 (proj2 (get_bad_chunk vis_store "vis" block float32)) 0 Hv Hd).
Defined.

(** A chunk of the wrong shape for an array the store does not have: the
    shape is looked at first, and the failure is a [BadChunk]. *)
Lemma put_unknown_misshapen :
  arrays vis_store !! "flags" = None
  ∧ fails_with BadChunk (put vis_store "flags" block misshapen).2
  ∧ ¬ fails_with ChunkNotFound (put vis_store "flags" block misshapen).2.
Proof. repeat split; vm_compute; [reflexivity..|discriminate]. Qed.

Lemma put_unknown_or_misshapen_witness :
  arrays vis_store !! "flags" = None
  ∧ forallb unit_step block = true
  ∧ shape_as_Z (shape new_block) = implied_shape block
  ∧ shape_as_Z (shape misshapen) ≠ implied_shape block
  ∧ fails_with ChunkNotFound (put vis_store "flags" block new_block).2
  ∧ fails_with BadChunk (put vis_store "vis" block misshapen).2.
Proof.
  assert (Hn : arrays vis_store !! "flags" = None) by (vm_compute; reflexivity).
  assert (Hu : forallb unit_step block = true) by reflexivity.
  assert (Hs : shape_as_Z (shape new_block) = implied_shape block) by reflexivity.
  assert (Hm : shape_as_Z (shape misshapen) ≠ implied_shape block) by discriminate.
  repeat (split; [assumption|]).
  split.
  - exact (proj1 (put_unknown_or_misshapen (arrays vis_store) (heap vis_store)
                    "flags" block new_block) Hn Hu Hs).
  - exact (proj1 (proj2 (put_unknown_or_misshapen (arrays vis_store)
                           (heap vis_store) "vis" block misshapen)) Hm).
Defined.

Lemma put_failure_no_mutation_witness :
  put vis_store "vis" block misshapen
  = (vis_store, Raise (StoreError BadChunk (metadata_text ("vis", block))))
  ∧ (fails_with ChunkNotFound
       (Raise (A := ()) (StoreError BadChunk (metadata_text ("vis", block))))
     ∨ fails_with BadChunk
         (Raise (A := ()) (StoreError BadChunk (metadata_text ("vis", block)))))
  ∧ vis_store = vis_store
  ∧ put vis_store "vis" block misshapen
    = (vis_store, Raise (StoreError BadChunk (metadata_text ("vis", block)))).
Proof.
  assert (Hp : put vis_store "vis" block misshapen
               = (vis_store,
                  Raise (StoreError BadChunk (metadata_text ("vis", block)))))
    by reflexivity.
  assert (Hf : fails_with ChunkNotFound
                 (Raise (A := ()) (StoreError BadChunk (metadata_text ("vis", block))))
               ∨ fails_with BadChunk
                   (Raise (A := ()) (StoreError BadChunk (metadata_text ("vis", block)))))
    by (right; reflexivity).
  repeat (split; [assumption|]).
  exact (put_failure_no_mutation vis_store "vis" block misshapen vis_store _ Hp Hf).
Defined.





(** Scenario D: of "A" and "B" only "B" resolves; and neither does. *)
Lemma get_with_fallback_first_witness :
  ["A"; "B"] = ["A"] ++ "B" :: []
  ∧ SensorCache.unresolved only_B ["A"]
  ∧ SensorCache.resolve only_B "B" = Some 21%Z
  ∧ SensorCache.unresolved no_sensors ["A"; "B"]
  ∧ SensorCache.get_with_fallback only_B "temperature" ["A"; "B"] = Ok 21%Z
  ∧ SensorCache.get_with_fallback no_sensors "temperature" ["A"; "B"]
    = Raise (Builtin KeyError (lookup_text "temperature" ["A"; "B"])).
Proof.
  assert (Hn : ["A"; "B"] = ["A"] ++ "B" :: []) by reflexivity.
  assert (Hp : SensorCache.unresolved only_B ["A"])
    by (repeat constructor).
  assert (Hb : SensorCache.resolve only_B "B" = Some 21%Z) by reflexivity.
  assert (Ha : SensorCache.unresolved no_sensors ["A"; "B"])
    by (repeat constructor).
  repeat (split; [assumption|]).
  split.
  - exact (proj1 (get_with_fallback_first only_B "temperature" ["A"; "B"])
             ["A"] "B" [] 21%Z Hn Hp Hb).
  - exact (proj2 (get_with_fallback_first no_sensors "temperature" ["A"; "B"]) Ha).
Defined.


End Scenarios.

(** ** Data sources on a telescope state *)

Section TelstateFacts.
Context `{Scalars} `{Wording} `{TelstateSource.Clock}.
Import DataSources TelstateSource.

Lemma startswith_app s p :
  startswith s p = true ↔ ∃ rest, s = p +:+ rest.
Proof.
  revert s. induction p as [|c p IH]; intros s; simpl.
  - split; [intros _; exists s; reflexivity | done].
  - destruct s as [|d s]; simpl.
    + split; [done | by intros [rest ?]].
    + rewrite andb_true_iff, bool_decide_eq_true, IH. split.
      * intros [-> [rest ->]]. by exists rest.
      * intros [rest [= -> ->]]. split; [done | by exists rest].
Qed.

Lemma string_drop_app p rest : string_drop (String.length p) (p +:+ rest) = rest.
Proof. induction p as [|c p IH]; simpl; [by destruct rest | done]. Qed.

Lemma string_drop_all s : string_drop (String.length s) s = EmptyString.
Proof. induction s as [|c s IH]; simpl; done. Qed.

Lemma startswith_refl s : startswith s s = true.
Proof.
  induction s as [|c s IH]; simpl; [done|].
  by rewrite bool_decide_eq_true_2, IH.
Qed.

(** X1: a shortened key that is not empty is what follows, in the key, the
    first prefix of the telescope state that the key starts with. *)
Theorem shorten_key_suffix (ts : telstate) key name :
  shorten_key ts key = name →
  name ≠ EmptyString →
  ∃ before prefix after,
    prefixes ts = before ++ prefix :: after
    ∧ Forall (λ p, startswith key p = false) before
    ∧ key = prefix +:+ name.
Proof.
  unfold shorten_key. generalize (prefixes ts). intros ps.
  induction ps as [|p ps IH]; simpl; intros Hs Hne; [congruence|].
  destruct (startswith key p) eqn:Hp.
  - apply startswith_app in Hp as [rest ->].
    rewrite string_drop_app in Hs. subst rest.
    exists [], p, ps. by repeat split.
  - destruct (IH Hs Hne) as (before & prefix & after & -> & Hb & Hk).
    exists (p :: before), prefix, after. repeat split; [|done]. by constructor.
Qed.

(** X2: the shortened key is empty when the key starts with none of the
    prefixes, and when the first prefix it starts with is the whole key. *)
Theorem shorten_key_empty (ts : telstate) key :
  (Forall (λ p, startswith key p = false) (prefixes ts) →
   shorten_key ts key = EmptyString)
  ∧ (∀ before after,
       prefixes ts = before ++ key :: after →
       Forall (λ p, startswith key p = false) before →
       shorten_key ts key = EmptyString).
Proof.
  unfold shorten_key. split.
  - induction 1 as [|p ps Hp _ IH]; simpl; [done|]. by rewrite Hp.
  - intros before after -> Hb.
    induction Hb as [|p ps Hp _ IH]; simpl.
    + by rewrite startswith_refl, string_drop_all.
    + by rewrite Hp.
Qed.

(** What the loop has collected after some keys. *)
Lemma collect_loop (ts : telstate) ks acc n :
  foldl (add_sensor ts) acc ks !! n
  = match list.last (filter (λ k, is_immutable ts k = false
                                 ∧ shorten_key ts k ≠ EmptyString
                                 ∧ shorten_key ts k = n) ks) with
    | Some k => Some k
    | None => acc !! n
    end.
Proof.
  revert acc. induction ks as [|k ks IH]; intros acc; [done|].
  simpl. rewrite IH.
  set (P := λ k, is_immutable ts k = false ∧ shorten_key ts k ≠ EmptyString
                 ∧ shorten_key ts k = n).
  destruct (decide (P k)) as [(Hi & Hne & Hs)|Hn].
  - rewrite filter_cons_True by done. rewrite last_cons.
    destruct (list.last (filter P ks)); [done|].
    unfold add_sensor. rewrite Hi. simpl.
    rewrite bool_decide_eq_false_2 by done. simpl.
    subst n. by rewrite lookup_insert_eq.
  - rewrite filter_cons_False by done.
    destruct (list.last (filter P ks)); [done|].
    unfold add_sensor. destruct (is_immutable ts k) eqn:Hi; simpl; [done|].
    case_bool_decide; simpl; [done|].
    rewrite lookup_insert_ne; [done|]. intros Heq. by apply Hn.
Qed.

(** X3: the sensors of a telescope state data source are the shortened
    keys, other than the empty one, of the keys that are not immutable; each
    is bound to the last key, in the order of the keys, that shortens to
    it. *)
Theorem collect_sensors_spec (ts : telstate) n :
  collect_sensors ts !! n
  = list.last (filter (λ k, is_immutable ts k = false
                            ∧ shorten_key ts k ≠ EmptyString
                            ∧ shorten_key ts k = n) (keys ts))
  ∧ (∀ key, collect_sensors ts !! n = Some key →
     n ≠ EmptyString ∧ key ∈ keys ts ∧ is_immutable ts key = false
     ∧ shorten_key ts key = n)
  ∧ (∀ key, key ∈ keys ts → is_immutable ts key = false →
       shorten_key ts key = n → n ≠ EmptyString →
       is_Some (collect_sensors ts !! n)).
Proof.
  unfold collect_sensors. split; [|split].
  - rewrite collect_loop, lookup_empty. by destruct (list.last _).
  - intros key. rewrite collect_loop, lookup_empty.
    destruct (list.last _) as [k|] eqn:Hl; [|done]. intros [= ->].
    apply last_Some_elem_of, list_elem_of_filter in Hl as [(Hi & Hne & Hs) Hin].
    subst n. done.
  - intros key Hin Hi Hs Hne. rewrite collect_loop.
    destruct (list.last _) as [k|] eqn:Hl; [done|].
    apply last_None in Hl.
    assert (key ∈ filter (λ k, is_immutable ts k = false
                               ∧ shorten_key ts k ≠ EmptyString
                               ∧ shorten_key ts k = n) (keys ts)) as Hf.
    { apply list_elem_of_filter. subst n. done. }
    rewrite Hl in Hf. by apply elem_of_nil in Hf.
Qed.

(** The object a chunk store makes of the arrays of a data set has one
    shape and the name of the data set. *)
Lemma ChunkStoreVisFlagsWeights_init_Ok store base_name ci obj :
  ChunkStoreVisFlagsWeights_init store base_name ci = Ok obj →
  same_shapes obj ∧ DataSources.name obj = base_name.
Proof.
  unfold ChunkStoreVisFlagsWeights_init. intros Hinit.
  repeat (match type of Hinit with
          | context [dict_get ?m ?k] => destruct (dict_get m k); [|done]
          | context [multiply ?x ?y] => destruct (multiply x y); [|done]
          end; simpl in Hinit).
  by apply VisFlagsWeights_init_Ok in Hinit as [-> Hs].
Qed.

Lemma length_make_timestamps t0 n it : length (make_timestamps t0 n it) = n.
Proof. unfold make_timestamps. by rewrite length_fmap, length_seq. Qed.

(** X4: when the telescope state lacks one of the keys that describe the
    data (the sync time, the first timestamp, the integration time, the
    chunk name, the chunk info or, without a chunk store of its own, the S3
    endpoint), the data source is made of the metadata alone: no data, no
    timestamps, and the name of the telescope state source. *)
Theorem TelstateDataSource_metadata_only s3_from_url (ts : telstate) store
    source_name :
  sync_time ts = None ∨ first_timestamp ts = None ∨ int_time ts = None
  ∨ chunk_name ts = None ∨ chunk_info ts = None
  ∨ (store = None ∧ s3_endpoint_url ts = None) →
  ∃ ds,
    TelstateDataSource_init s3_from_url ts store source_name = Ok ds
    ∧ data ds = None
    ∧ timestamps ds = None
    ∧ sensors (metadata ds) = collect_sensors ts
    ∧ DataSource_name ds = source_name.
Proof.
  intros Hmiss. unfold TelstateDataSource_init.
  assert (data_keys ts store = None) as ->.
  { unfold data_keys.
    destruct (sync_time ts) eqn:?; simpl; [|done].
    destruct (first_timestamp ts) eqn:?; simpl; [|done].
    destruct (int_time ts) eqn:?; simpl; [|done].
    destruct (chunk_name ts) eqn:?; simpl; [|done].
    destruct (chunk_info ts) eqn:?; simpl; [|done].
    destruct store; simpl.
    - by destruct Hmiss as [?|[?|[?|[?|[?|[? ?]]]]]].
    - destruct (s3_endpoint_url ts) eqn:?; simpl; [|done].
      by destruct Hmiss as [?|[?|[?|[?|[?|[? ?]]]]]]. }
  eexists. by repeat split.
Qed.

(** X5: a data source with data has one timestamp per dump of the
    visibilities (the first entry of the shape that the chunk info gives for
    the correlator data); its visibilities, flags and weights have one
    shape; and its name is the name of the source, followed by the chunk
    name when that is another one. *)
Theorem TelstateDataSource_with_data s3_from_url (ts : telstate) store
    source_name ds d :
  TelstateDataSource_init s3_from_url ts store source_name = Ok ds →
  data ds = Some d →
  ∃ ci info cn stamps,
    chunk_info ts = Some ci
    ∧ chunk_name ts = Some cn
    ∧ ci !! "correlator_data" = Some info
    ∧ timestamps ds = Some stamps
    ∧ head (info_shape info) = Some (length stamps)
    ∧ same_shapes d
    ∧ DataSource_name ds
      = (if decide (cn ≠ source_name) then source_name +:+ " | " +:+ cn
         else source_name).
Proof.
  unfold TelstateDataSource_init, data_keys. intros Hinit Hd.
  destruct (sync_time ts); simpl in Hinit; [|by simplify_eq].
  destruct (first_timestamp ts); simpl in Hinit; [|by simplify_eq].
  destruct (int_time ts); simpl in Hinit; [|by simplify_eq].
  destruct (chunk_name ts) as [cn|]; simpl in Hinit; [|by simplify_eq].
  destruct (chunk_info ts) as [ci|]; simpl in Hinit; [|by simplify_eq].
  destruct (match store with
            | Some st => Some (inl st)
            | None => inr <$> s3_endpoint_url ts
            end) as [src|]; simpl in Hinit; [|by simplify_eq].
  unfold first_dump_count in Hinit.
  destruct (ci !! "correlator_data") as [info|] eqn:Hci; [|done].
  destruct (info_shape info) as [|n sh] eqn:Hsh; [done|]. simpl in Hinit.
  destruct (ChunkStoreVisFlagsWeights_init _ cn ci) as [d'|] eqn:Hv; [|done].
  apply ChunkStoreVisFlagsWeights_init_Ok in Hv as [Hs Hn].
  simpl in Hinit. simplify_eq/=.
  eexists ci, info, (DataSources.name d), _.
  split_and!; try done; [|apply Hs..].
  by rewrite Hsh, length_make_timestamps.
Qed.

(** X6: a chunk info that does not describe the correlator data is not
    taken for missing data: the [KeyError] is raised outside the [try]
    block and leaves the constructor. *)
Theorem TelstateDataSource_no_correlator_data s3_from_url (ts : telstate)
    store source_name ci :
  is_Some (sync_time ts) → is_Some (first_timestamp ts) →
  is_Some (int_time ts) → is_Some (chunk_name ts) →
  is_Some store ∨ is_Some (s3_endpoint_url ts) →
  chunk_info ts = Some ci →
  ci !! "correlator_data" = None →
  TelstateDataSource_init s3_from_url ts store source_name
  = Raise (Builtin KeyError (py_repr "correlator_data")).
Proof.
  intros [? Hs] [? Hf] [? Hi] [? Hc] Hstore Hci Hnone.
  unfold TelstateDataSource_init, data_keys.
  rewrite Hs, Hf, Hi, Hc, Hci. simpl.
  assert (∃ src, match store with
                 | Some st => Some (inl st)
                 | None => inr <$> s3_endpoint_url ts
                 end = Some src) as [src ->].
  { destruct store as [st|]; [by eexists|].
    destruct Hstore as [[? ?]|[url ->]]; [done | by eexists]. }
  simpl. unfold first_dump_count. by rewrite Hnone.
Qed.

End TelstateFacts.

Section ChunkStoreDataFacts.
Context `{Scalars} `{Wording}.
Import DataSources.

(** X7: the chunk info has to describe the correlator data, the flags, the
    weights and the channel weights: the constructor raises the [KeyError]
    of the first of the four, in this order, that it does not describe, and
    an object that it constructs holds the arrays that the store gives for
    the correlator data and the flags under the name of the data set. *)
Theorem ChunkStoreVisFlagsWeights_needs_arrays store base_name
    (chunk_info : gmap string array_info) :
  (∀ before key after,
     ["correlator_data"; "flags"; "weights"; "weights_channel"]
     = before ++ key :: after →
     Forall (λ k, is_Some (chunk_info !! k)) before →
     chunk_info !! key = None →
     ChunkStoreVisFlagsWeights_init store base_name chunk_info
     = Raise (Builtin KeyError (py_repr key)))
  ∧ (∀ obj,
       ChunkStoreVisFlagsWeights_init store base_name chunk_info = Ok obj →
       ∃ iv ifl,
         chunk_info !! "correlator_data" = Some iv
         ∧ chunk_info !! "flags" = Some ifl
         ∧ is_Some (chunk_info !! "weights")
         ∧ is_Some (chunk_info !! "weights_channel")
         ∧ vis obj = stored_array store base_name "correlator_data" iv
         ∧ flags obj = stored_array store base_name "flags" ifl
         ∧ name obj = base_name).
Proof.
  split.
  - intros before key after Hsplit Hbefore Hkey.
    unfold ChunkStoreVisFlagsWeights_init, dict_get.
    rewrite !map_lookup_imap.
    destruct before as [|k1 before]; simplify_eq/=; [by rewrite Hkey|].
    apply Forall_cons in Hbefore as [[? ->] Hbefore]. simpl.
    destruct before as [|k2 before]; simplify_eq/=; [by rewrite Hkey|].
    apply Forall_cons in Hbefore as [[? ->] Hbefore]. simpl.
    destruct before as [|k3 before]; simplify_eq/=; [by rewrite Hkey|].
    apply Forall_cons in Hbefore as [[? ->] Hbefore]. simpl.
    destruct before as [|k4 before]; simplify_eq/=; [by rewrite Hkey|].
    by destruct before.
  - intros obj Hinit. unfold ChunkStoreVisFlagsWeights_init, dict_get in Hinit.
    rewrite !map_lookup_imap in Hinit.
    destruct (chunk_info !! "correlator_data") as [iv|]; [|done].
    destruct (chunk_info !! "flags") as [ifl|]; [|done].
    destruct (chunk_info !! "weights") as [iw|]; [|done].
    destruct (chunk_info !! "weights_channel") as [iwc|]; [|done].
    simpl in Hinit.
    destruct (multiply _ _) as [w|]; [|done]. simpl in Hinit.
    apply VisFlagsWeights_init_Ok in Hinit as [-> _].
    exists iv, ifl. by repeat split.
Qed.

End ChunkStoreDataFacts.

(** ** The selection of weights *)

Section WeightSelectionFacts.
Context `{Scalars} `{Wording} {D : Type}.
Import Numpy LazyIndexer H5DataV3 H5Select.

Lemma list_index_Some name known i :
  list_index name known = Some i → known !! i = Some name.
Proof.
  revert i. induction known as [|y known IH]; intros i; simpl; [done|].
  case_decide as Hy; [by intros [= <-]; subst|].
  destruct (list_index name known) as [j|]; simpl; [|done].
  intros [= <-]. by apply IH.
Qed.

Lemma list_index_None name known :
  list_index name known = None ↔ name ∉ known.
Proof.
  induction known as [|y known IH]; simpl.
  - split; [intros _; apply not_elem_of_nil | done].
  - rewrite not_elem_of_cons. case_decide as Hy.
    + split; [done | by intros [? _]; subst].
    + destruct (list_index name known) as [j|]; simpl.
      * split; [done|]. intros [_ Hn]. by apply IH in Hn.
      * split; [|done]. intros _. split; [done | by apply IH].
Qed.

Lemma list_index_is_Some name known :
  name ∈ known → is_Some (list_index name known).
Proof.
  intros Hin. destruct (list_index name known) eqn:E; [done|].
  by apply list_index_None in E.
Qed.

(** What the loop of the setter adds to the selection and to the log. *)
Lemma select_names_spec known names sel log :
  select_names known names sel log
  = (sel ++ omap (λ n, list_index n known) names,
     log ++ (not_a_weight known <$> filter (λ n, n ∉ known) names)).
Proof.
  revert sel log. induction names as [|name names IH]; intros sel log; simpl.
  { by rewrite !app_nil_r. }
  destruct (list_index name known) as [i|] eqn:E.
  - rewrite IH, <- app_assoc. simpl.
    rewrite filter_cons_False; [done|].
    intros Hn. apply list_index_None in Hn. congruence.
  - rewrite IH, <- app_assoc. simpl.
    by rewrite filter_cons_True by (by apply list_index_None).
Qed.

Lemma lookup_indices known names :
  mapM (λ ind, known !! ind) (omap (λ n, list_index n known) names)
  = Some (filter (λ n, n ∈ known) names).
Proof.
  apply mapM_Some. induction names as [|name names IH]; simpl; [constructor|].
  destruct (list_index name known) as [i|] eqn:E.
  - rewrite filter_cons_True.
    + constructor; [by apply list_index_Some | done].
    + destruct (decide (name ∈ known)) as [|Hn]; [done|].
      apply list_index_None in Hn. congruence.
  - rewrite filter_cons_False; [done|]. by apply list_index_None.
Qed.

Lemma set_weights_keep_spec (self : H5DataV3.t D) names :
  let known := known_weights self in
  let asked := requested known names in
  set_weights_keep self names
  = (MkH5DataV3 (weights_dataset self) (weights_description self)
       (omap (λ n, list_index n known) asked)
       (time_keep self) (freq_keep self) (corrprod_keep self) (squeeze self),
     (not_a_weight known <$> filter (λ n, n ∉ known) asked)
     ++ (if negb (bool_decide (known = []))
            && bool_decide (omap (λ n, list_index n known) asked = [])
         then [no_valid_weights] else [])).
Proof.
  intros known asked. unfold set_weights_keep.
  fold known. fold (requested known names). fold asked.
  rewrite select_names_spec. simpl.
  by destruct (_ && _); rewrite ?app_nil_r.
Qed.

Lemma get_weights_keep_after_set (self : H5DataV3.t D) names :
  get_weights_keep (set_weights_keep self names).1
  = Ok (filter (λ n, n ∈ known_weights self)
               (requested (known_weights self) names)).
Proof.
  rewrite set_weights_keep_spec. unfold get_weights_keep. simpl.
  unfold known_weights at 1 2. simpl. fold (known_weights self).
  by rewrite lookup_indices.
Qed.

(** X8: after an assignment to [_weights_keep], reading it gives the names
    asked for that are weight types of the file, in the order asked for; no
    index of the selection is out of range. *)
Theorem get_set_weights_keep (self : H5DataV3.t D) names :
  get_weights_keep (set_weights_keep self names).1
  = Ok (filter (λ n, n ∈ known_weights self)
               (requested (known_weights self) names)).
Proof. apply get_weights_keep_after_set. Qed.

(** X9: the setter logs one warning for every name asked for that is not a
    weight type of the file, in the order asked for, and after them the
    warning that all weights are set to 1.0 when the file has weight types
    and none of the names is one. *)
Theorem set_weights_keep_warnings (self : H5DataV3.t D) names :
  let known := known_weights self in
  let asked := requested known names in
  (set_weights_keep self names).2
  = (not_a_weight known <$> filter (λ n, n ∉ known) asked)
    ++ (if decide (known ≠ [] ∧ Forall (λ n, n ∉ known) asked)
        then [no_valid_weights] else []).
Proof.
  intros known asked. rewrite set_weights_keep_spec. simpl. f_equal.
  fold known asked.
  assert (omap (λ n, list_index n known) asked = []
          ↔ Forall (λ n, n ∉ known) asked) as Hnone.
  { induction asked as [|n asked IH]; simpl; [by split|].
    destruct (list_index n known) as [i|] eqn:E.
    - split; [done|]. intros Hall. apply Forall_cons in Hall as [Hn _].
      apply list_index_None in Hn. congruence.
    - rewrite IH. split.
      + intros Hall. constructor; [by apply list_index_None | done].
      + intros Hall. by apply Forall_cons in Hall as [_ ?]. }
  destruct (decide (known = [])) as [Hk|Hk].
  - rewrite bool_decide_eq_true_2 by done. simpl.
    by rewrite decide_False by (by intros [? _]).
  - rewrite bool_decide_eq_false_2 by done. simpl.
    case_bool_decide as Ho.
    + by rewrite decide_True by (split; [done | by apply Hnone]).
    + rewrite decide_False; [done|]. intros [_ Hall]. by apply Ho, Hnone.
Qed.

Lemma split_no_sep c s : has_char c s = false → split c s = [s].
Proof.
  induction s as [|d s IH]; simpl; [done|].
  rewrite orb_false_iff, bool_decide_eq_false. intros [Hd Hs].
  rewrite decide_False by done. by rewrite IH.
Qed.

Lemma split_app c s rest :
  has_char c s = false → split c (s +:+ String c rest) = s :: split c rest.
Proof.
  induction s as [|d s IH]; simpl.
  - intros _. by rewrite decide_True.
  - rewrite orb_false_iff, bool_decide_eq_false. intros [Hd Hs].
    rewrite decide_False by done. by rewrite IH.
Qed.

(** Joining names with commas and splitting the string gives the names. *)
Lemma split_concat (l : list string) :
  l ≠ [] → Forall (λ n, has_char ","%char n = false) l →
  split ","%char (String.concat "," l) = l.
Proof.
  intros Hne Hall. induction Hall as [|n l Hn Hall IH]; [done|].
  destruct l as [|m l].
  - by apply split_no_sep.
  - change (String.concat "," (n :: m :: l))
      with (n +:+ String ","%char (String.concat "," (m :: l))).
    rewrite split_app by done. f_equal. by apply IH.
Qed.

(** X10: assigning to [_weights_keep] the names joined by commas is
    assigning the sequence of the names, as long as there is a name, no name
    holds a comma and the string is not "all": the same selection and the
    same warnings. *)
Theorem set_weights_keep_string (self : H5DataV3.t D) (l : list string) :
  l ≠ [] →
  Forall (λ n, has_char ","%char n = false) l →
  String.concat "," l ≠ "all" →
  set_weights_keep self (NamesStr (String.concat "," l))
  = set_weights_keep self (NamesSeq l).
Proof.
  intros Hne Hall Hnot. unfold set_weights_keep.
  rewrite decide_False by done. by rewrite split_concat.
Qed.

Lemma filter_all {A} (P : A → Prop) `{!∀ x, Decision (P x)} (l : list A) :
  Forall P l → filter P l = l.
Proof.
  induction 1 as [|x l Hx _ IH]; [done|].
  by rewrite filter_cons_True, IH.
Qed.

Lemma filter_none {A} (P : A → Prop) `{!∀ x, Decision (P x)} (l : list A) :
  Forall (λ x, ¬ P x) l → filter P l = [].
Proof.
  induction 1 as [|x l Hx _ IH]; [done|].
  by rewrite filter_cons_False.
Qed.

Lemma requested_all known : requested known (NamesStr "all") = known.
Proof. unfold requested. by rewrite decide_True. Qed.

Lemma omap_index_known (known l : list string) :
  l ≠ [] → l ⊆ known → omap (λ n, list_index n known) l ≠ [].
Proof.
  intros Hne Hsub. destruct l as [|n l]; [done|]. simpl.
  destruct (list_index_is_Some n known) as [i ->]; [|done].
  apply Hsub. by left.
Qed.

(** What reading the weights gives while a weight type is selected. *)
Lemma weights_getitem_selected (len : D → nat)
    (pull : D → stage1_t → list dim_keep → result ndarray)
    (self : H5DataV3.t D) k :
  weights_select self ≠ [] →
  LazyIndexer.getitem pull (weights len self) k
  = (w ← pull (weights_dataset self) (keep (weights len self)) k;
     if squeeze self then Ok (astype_array float32 w)
     else force_3dim (astype_array float32 w) k).
Proof.
  intros Hsel. unfold LazyIndexer.getitem, weights, vislike_indexer. simpl.
  destruct (pull _ _ k) as [w|e]; [|done]. simpl.
  unfold weights_transform. rewrite bool_decide_eq_false_2 by done. simpl.
  by destruct (squeeze self); simpl; [|destruct (force_3dim _ _)].
Qed.

(** X11: a file that describes weight types, or that has no table of
    weight descriptions at all and gets the default one, starts with all its
    weight types selected and nothing logged, and its weights are read as
    the stored weights converted to float32, not as 1.0. *)
Theorem init_weights_selects_all (len : D → nat)
    (pull : D → stage1_t → list dim_keep → result ndarray)
    (ds : D) description tk fk ck sq k :
  description ≠ Some [] →
  let self := (init_weights ds description tk fk ck sq).1 in
  (init_weights ds description tk fk ck sq).2 = []
  ∧ get_weights_keep self = Ok (known_weights self)
  ∧ LazyIndexer.getitem pull (weights len self) k
    = (w ← pull ds (keep (weights len self)) k;
       if sq then Ok (astype_array float32 w)
       else force_3dim (astype_array float32 w) k).
Proof.
  intros Hd self. subst self. unfold init_weights.
  set (rows := match description with
               | Some rows => rows
               | None => zip WEIGHT_NAMES WEIGHT_DESCRIPTIONS
               end).
  assert (Hrows : fst <$> rows ≠ []).
  { subst rows. destruct description as [[|row rows]|]; done. }
  set (self0 := MkH5DataV3 ds (Some rows) [] tk fk ck sq).
  assert (Hk : known_weights self0 = fst <$> rows) by done.
  assert (Hall : filter (λ n, n ∉ fst <$> rows) (fst <$> rows) = []).
  { apply filter_none, Forall_forall. intros n Hn Hnot. by apply Hnot. }
  assert (Hsel : omap (λ n, list_index n (fst <$> rows)) (fst <$> rows) ≠ [])
    by by apply omap_index_known.
  assert (Hset : set_weights_keep self0 (NamesStr "all")
                 = (MkH5DataV3 ds (Some rows)
                      (omap (λ n, list_index n (fst <$> rows)) (fst <$> rows))
                      tk fk ck sq, [])).
  { rewrite set_weights_keep_spec. cbv zeta.
    rewrite requested_all, Hk, Hall.
    rewrite (bool_decide_eq_false_2 (fst <$> rows = [])) by done.
    by rewrite (bool_decide_eq_false_2 (omap _ _ = [])) by done. }
  split; [|split].
  - by rewrite Hset.
  - rewrite get_weights_keep_after_set, Hset, requested_all, Hk.
    f_equal. apply filter_all, Forall_forall. by intros n Hn.
  - rewrite Hset. simpl. by rewrite weights_getitem_selected.
Qed.

End WeightSelectionFacts.

(** ** The selection of flags *)

Section FlagSelectionFacts.
Context `{Scalars} `{Wording}.
Import H5DataV3 H5Select.

Lemma eight_bits (bits : list bool) :
  length bits = 8 →
  ∃ b0 b1 b2 b3 b4 b5 b6 b7, bits = [b0; b1; b2; b3; b4; b5; b6; b7].
Proof.
  intros Hlen.
  do 8 (destruct bits as [|? bits]; [done|]).
  destruct bits; [|done]. by repeat eexists.
Qed.

Lemma mask_of_bits (bits : list bool) :
  length bits = 8 →
  flipud (unpackbits (packbits (flipud bits))) = bits
  ∧ (0 ≤ packbits (flipud bits) < 256)%Z
  ∧ ∀ i, i < 8 →
      Z.testbit (packbits (flipud bits)) (Z.of_nat i) = default false (bits !! i).
Proof.
  intros Hlen.
  destruct (eight_bits bits Hlen) as (b0 & b1 & b2 & b3 & b4 & b5 & b6 & b7 & ->).
  split; [|split].
  - by destruct b0, b1, b2, b3, b4, b5, b6, b7.
  - destruct b0, b1, b2, b3, b4, b5, b6, b7; vm_compute; by split.
  - intros i Hi.
    do 8 (destruct i as [|i];
          [by destruct b0, b1, b2, b3, b4, b5, b6, b7|]).
    lia.
Qed.

(** X12: packing eight flag bits into the mask and unpacking the mask gives
    the bits back, the first bit being the least significant bit of the
    mask; the mask is a byte. *)
Theorem unpack_pack_bits (bits : list bool) :
  length bits = 8 →
  flipud (unpackbits (packbits (flipud bits))) = bits
  ∧ (0 ≤ packbits (flipud bits) < 256)%Z
  ∧ ∀ i, i < 8 →
      Z.testbit (packbits (flipud bits)) (Z.of_nat i) = default false (bits !! i).
Proof. apply mask_of_bits. Qed.

(** In a table without repeated names, the index of a name is its row. *)
Lemma list_index_NoDup name known i :
  NoDup known → known !! i = Some name → list_index name known = Some i.
Proof.
  intros Hnd. revert i. induction Hnd as [|y known Hy Hnd IH]; intros i; [done|].
  destruct i as [|i]; simpl.
  - intros [= ->]. by rewrite decide_True.
  - intros Hi. rewrite decide_False.
    + by rewrite (IH i Hi).
    + intros ->. apply Hy. by eapply list_elem_of_lookup_2.
Qed.

(** What the loop of the setter marks and logs. *)
Lemma mark_names_spec known names sel log :
  ∃ sel',
    mark_names known names sel log
    = (sel', log ++ (not_a_flag known <$> filter (λ n, n ∉ known) names))
    ∧ length sel' = length sel
    ∧ ∀ i, sel' !! i = Some true ↔
           sel !! i = Some true
           ∨ (i < length sel ∧ ∃ n, n ∈ names ∧ list_index n known = Some i).
Proof.
  revert sel log. induction names as [|name names IH]; intros sel log; simpl.
  { exists sel. rewrite app_nil_r. repeat split; [by left|].
    intros [?|(_ & n & Hn & _)]; [done | by apply elem_of_nil in Hn]. }
  destruct (list_index name known) as [j|] eqn:E.
  - destruct (IH (<[j:=true]> sel) log) as (sel' & -> & Hlen & Hsel).
    exists sel'. rewrite length_insert in Hlen.
    rewrite filter_cons_False
      by (intros Hn; apply list_index_None in Hn; congruence).
    repeat split; [done|..].
    + intros Hi. apply Hsel in Hi as [Hi|(Hi & n & Hn & Hidx)].
      * destruct (decide (j = i)) as [->|Hne].
        -- right. apply lookup_lt_Some in Hi. rewrite length_insert in Hi.
           split; [done|]. exists name. split; [by left | done].
        -- left. by rewrite list_lookup_insert_ne in Hi.
      * right. rewrite length_insert in Hi. split; [done|].
        exists n. split; [by right | done].
    + intros [Hi|(Hi & n & Hn & Hidx)]; apply Hsel.
      * left. destruct (decide (j = i)) as [->|Hne].
        -- apply list_lookup_insert_eq. by eapply lookup_lt_Some.
        -- by rewrite list_lookup_insert_ne.
      * apply elem_of_cons in Hn as [->|Hn].
        -- left. assert (j = i) as -> by congruence.
           by apply list_lookup_insert_eq.
        -- right. rewrite length_insert. split; [done|]. by exists n.
  - destruct (IH sel (log ++ [not_a_flag known name])) as (sel' & Hm & Hlen & Hsel).
    exists sel'. unfold not_a_flag in Hm at 1. rewrite Hm.
    rewrite filter_cons_True by (by apply list_index_None).
    rewrite <- app_assoc. repeat split; [done|..].
    + intros Hi. apply Hsel in Hi as [Hi|(Hi & n & Hn & Hidx)]; [by left|].
      right. split; [done|]. exists n. split; [by right | done].
    + intros [Hi|(Hi & n & Hn & Hidx)]; apply Hsel; [by left|].
      apply elem_of_cons in Hn as [->|Hn]; [congruence|].
      right. split; [done|]. by exists n.
Qed.

(** The names of the rows that are marked. *)
Lemma marked_names (P : string → Prop) `{!∀ n, Decision (P n)}
    (known : list string) (sel : list bool) :
  length known = length sel →
  (∀ i n, known !! i = Some n → (sel !! i = Some true ↔ P n)) →
  fst <$> filter (λ nb, nb.2 = true) (zip known sel) = filter P known.
Proof.
  revert sel. induction known as [|n known IH]; intros [|b sel] Hlen Hsel;
    try done.
  simpl in *. specialize (IH sel).
  assert (Htail : fst <$> filter (λ nb : string * bool, nb.2 = true) (zip known sel)
                  = filter P known).
  { apply IH; [lia|]. intros i m Hm. apply (Hsel (S i) m Hm). }
  specialize (Hsel 0 n eq_refl). simpl in Hsel.
  destruct (decide (P n)) as [Hp|Hp].
  - rewrite (filter_cons_True P) by done.
    assert (b = true) as -> by (apply Hsel in Hp; congruence).
    rewrite filter_cons_True by done. rewrite fmap_cons. simpl.
    f_equal. exact Htail.
  - rewrite (filter_cons_False P) by done.
    rewrite filter_cons_False; [exact Htail|]. simpl. intros ->.
    by apply Hp, Hsel.
Qed.

(** The setter on a table of eight different flag names. *)
Lemma set_flags_keep_spec (self : flags_t) rows names :
  flags_description self = Some rows →
  length (fst <$> rows) = 8 →
  NoDup (fst <$> rows) →
  ∃ sel log,
    set_flags_keep self names
    = Some (MkFlags (Some rows) (packbits (flipud sel)), log)
    ∧ length sel = 8
    ∧ log = (not_a_flag (fst <$> rows)
               <$> filter (λ n, n ∉ fst <$> rows)
                          (requested (fst <$> rows) names))
            ++ (if bool_decide (packbits (flipud sel) = 0%Z)
                then [no_valid_flags] else [])
    ∧ ∀ i n, (fst <$> rows) !! i = Some n →
        (sel !! i = Some true ↔ n ∈ requested (fst <$> rows) names).
Proof.
  intros Hrows Hlen Hnd. unfold set_flags_keep. rewrite Hrows.
  fold (requested (fst <$> rows) names).
  rewrite decide_True by (by rewrite length_replicate).
  destruct (mark_names_spec (fst <$> rows)
              (requested (fst <$> rows) names) (replicate 8 false) [])
    as (sel & -> & Hsel8 & Hsel).
  rewrite length_replicate in Hsel8.
  assert (Hne : fst <$> rows ≠ []) by (intros He; by rewrite He in Hlen).
  rewrite (bool_decide_eq_false_2 (fst <$> rows = [])) by done.
  eexists sel, _. split; [done|]. split; [done|]. split.
  { simpl. by destruct (bool_decide _); rewrite ?app_nil_r. }
  intros i n Hi. rewrite Hsel. split.
  - intros [Hr|(_ & m & Hm & Hidx)].
    + apply lookup_replicate in Hr as [? _]. done.
    + apply list_index_Some in Hidx. by simplify_eq.
  - intros Hn. right. split.
    + apply lookup_lt_Some in Hi. rewrite length_replicate. lia.
    + exists n. split; [done|]. by apply list_index_NoDup.
Qed.

(** X13: with a table of eight different flag names, reading
    [_flags_keep] after an assignment gives the flags of the table that were
    asked for, in the order of the table. *)
Theorem get_set_flags_keep (self : flags_t) rows names :
  flags_description self = Some rows →
  length (fst <$> rows) = 8 →
  NoDup (fst <$> rows) →
  ∃ self' log,
    set_flags_keep self names = Some (self', log)
    ∧ get_flags_keep self'
      = Some (filter (λ n, n ∈ requested (fst <$> rows) names) (fst <$> rows)).
Proof.
  intros Hrows Hlen Hnd.
  destruct (set_flags_keep_spec self rows names Hrows Hlen Hnd)
    as (sel & log & -> & Hsel8 & _ & Hsel).
  eexists _, log. split; [done|].
  unfold get_flags_keep. simpl.
  destruct (mask_of_bits sel Hsel8) as (-> & _ & _).
  rewrite decide_True by congruence. f_equal.
  apply marked_names; [congruence | done].
Qed.

(** A byte and a mask have a bit in common exactly when their bitwise and
    is not zero. *)
Lemma land_byte_nonzero (m b : Z) :
  (0 ≤ m < 256)%Z →
  (Z.land m b =? 0)%Z = false
  ↔ ∃ i, i < 8 ∧ Z.testbit m (Z.of_nat i) = true
         ∧ Z.testbit b (Z.of_nat i) = true.
Proof.
  intros Hm. rewrite Z.eqb_neq. split.
  - intros Hne.
    destruct (decide (Exists (λ i, Z.testbit (Z.land m b) (Z.of_nat i) = true)
                             (seq 0 8))) as [Hex|Hnone].
    { apply Exists_exists in Hex as (i & Hi & Hb).
      apply elem_of_seq in Hi.
      exists i. rewrite Z.land_spec, andb_true_iff in Hb.
      split; [lia | by destruct Hb]. }
    destruct Hne. apply Z.bits_inj_0. intros n.
    destruct (decide (n < 0)%Z) as [Hneg|Hpos].
    { by apply Z.testbit_neg_r. }
    destruct (decide (n < 8)%Z) as [Hlt|Hge].
    + destruct (Z.testbit (Z.land m b) n) eqn:Hb; [|done].
      destruct Hnone. apply Exists_exists. exists (Z.to_nat n).
      split; [apply elem_of_seq; lia|].
      by rewrite Z2Nat.id by lia.
    + rewrite Z.land_spec.
      rewrite (Z.bits_above_log2 m n); [done | lia |].
      destruct (decide (m = 0%Z)) as [->|Hm0]; [simpl; lia|].
      assert (Z.log2 m < 8)%Z; [|lia].
      apply Z.log2_lt_pow2; lia.
  - intros (i & Hi & Hm' & Hb) Hz.
    assert (Z.testbit (Z.land m b) (Z.of_nat i) = true) as Hbit
      by (by rewrite Z.land_spec, Hm', Hb).
    rewrite Hz, Z.bits_0 in Hbit. done.
Qed.

(** X14: with a table of eight different flag names, a sample is flagged
    after an assignment to [_flags_keep] exactly when its flag byte has a bit
    set whose flag, the one in the row of the table with the number of the
    bit counted from the least significant one, was asked for. *)
Theorem flagged_iff_selected_bit (self : flags_t) rows names (byte : Z) :
  flags_description self = Some rows →
  length (fst <$> rows) = 8 →
  NoDup (fst <$> rows) →
  ∃ self' log,
    set_flags_keep self names = Some (self', log)
    ∧ (flag_set self' byte = true ↔
       ∃ i n, (fst <$> rows) !! i = Some n
              ∧ n ∈ requested (fst <$> rows) names
              ∧ Z.testbit byte (Z.of_nat i) = true).
Proof.
  intros Hrows Hlen Hnd.
  destruct (set_flags_keep_spec self rows names Hrows Hlen Hnd)
    as (sel & log & -> & Hsel8 & _ & Hsel).
  eexists _, log. split; [done|].
  destruct (mask_of_bits sel Hsel8) as (_ & Hrange & Hbits).
  unfold flag_set. simpl. rewrite negb_true_iff, land_byte_nonzero by done.
  split.
  - intros (i & Hi & Hm & Hb). rewrite Hbits in Hm by done.
    destruct (lookup_lt_is_Some_2 (fst <$> rows) i) as [n Hn]; [lia|].
    exists i, n. repeat split; [done| |done].
    apply (Hsel i n Hn). destruct (sel !! i) as [[]|]; done.
  - intros (i & n & Hn & Hreq & Hb).
    assert (i < 8) by (apply lookup_lt_Some in Hn; lia).
    exists i. repeat split; [done| |done].
    rewrite Hbits by done. apply (Hsel i n Hn) in Hreq. by rewrite Hreq.
Qed.

(** X15: a file with a table of eight different flag names, or without a
    table and hence with the default one, starts with all flags selected and
    nothing logged: the mask is 255, and a sample is flagged exactly when
    its flag byte is not zero. *)
Theorem init_flags_selects_all description :
  (∀ rows, description = Some rows →
     length (fst <$> rows) = 8 ∧ NoDup (fst <$> rows)) →
  ∃ self,
    init_flags description = Some (self, [])
    ∧ flags_select self = 255%Z
    ∧ ∀ byte, (0 ≤ byte < 256)%Z → flag_set self byte = negb (byte =? 0)%Z.
Proof.
  intros Hdesc. unfold init_flags.
  set (rows := match description with
               | Some rows => rows
               | None => zip FLAG_NAMES FLAG_DESCRIPTIONS
               end).
  assert (Hrows : length (fst <$> rows) = 8 ∧ NoDup (fst <$> rows)).
  { subst rows. destruct description as [rows|]; [by apply Hdesc|].
    split; [done|]. by apply (bool_decide_unpack _). }
  destruct Hrows as [Hlen Hnd].
  destruct (set_flags_keep_spec (MkFlags (Some rows) 0) rows (NamesStr "all")
              eq_refl Hlen Hnd) as (sel & log & Hset & Hsel8 & Hlog & Hsel).
  assert (sel = replicate 8 true) as ->.
  { apply list_eq_same_length with 8; [done..|].
    intros i b b' Hi Hb Hb'. apply lookup_replicate in Hb' as [-> _].
    destruct (lookup_lt_is_Some_2 (fst <$> rows) i) as [n Hn]; [lia|].
    assert (sel !! i = Some true) as Ht; [|congruence].
    apply (Hsel i n Hn). unfold requested. rewrite decide_True by done.
    by eapply list_elem_of_lookup_2. }
  assert (log = []) as ->.
  { rewrite Hlog. unfold requested. rewrite decide_True by done.
    rewrite filter_none
      by (apply Forall_forall; intros n Hn Hnot; by apply Hnot).
    done. }
  eexists. split; [exact Hset|]. split; [done|].
  intros byte Hbyte. unfold flag_set.
  assert (Z.land (flags_select
                    (MkFlags (Some rows) (packbits (flipud (replicate 8 true)))))
                 byte = byte) as ->; [|done].
  change (Z.land (Z.ones 8) byte = byte).
  rewrite Z.land_comm, Z.land_ones by lia.
  apply Z.mod_small. lia.
Qed.

End FlagSelectionFacts.

(** ** Dumps, axes and correlation products *)

Section SelectionEntries.
Import LazyIndexer.

Lemma count_non_scalars (l : list dim_keep) :
  length (filter (λ e : bool, e = false) (isscalar <$> l))
  = length (filter (λ e : dim_keep, isscalar e = false) l).
Proof.
  induction l as [|e l IH]; [done|].
  rewrite fmap_cons.
  rewrite (filter_cons (λ e0 : dim_keep, isscalar e0 = false)).
  rewrite (filter_cons (λ e0 : bool, e0 = false)).
  repeat case_decide; simpl; congruence.
Qed.

Lemma count_slices n :
  length (filter (λ e : bool, e = false)
            (isscalar <$> replicate n (KeepSlice None))) = n.
Proof.
  induction n as [|n IH]; [done|].
  change (replicate (S n) (KeepSlice None))
    with (KeepSlice None :: replicate n (KeepSlice None)).
  rewrite fmap_cons, (filter_cons (λ e0 : bool, e0 = false)).
  rewrite decide_True by done. simpl. by rewrite IH.
Qed.

End SelectionEntries.

Section InitFacts.
Context `{Scalars} `{Wording}.
Import Numpy LazyIndexer H5DataV3 H5Init.

(** The last dump is discarded exactly when there are two dumps or more and
    the last timestamp is the one before it over again. *)
Lemma kept_dumps_cases {T} (eqb : T → T → bool) (timestamps : list T) :
  (final_dump_repeated eqb timestamps
   ∧ 1 < length timestamps
   ∧ kept_dumps eqb timestamps = length timestamps - 1)
  ∨ (¬ final_dump_repeated eqb timestamps
     ∧ kept_dumps eqb timestamps = length timestamps).
Proof.
  unfold kept_dumps, final_dump_repeated.
  destruct (decide (1 < length timestamps)) as [Hlen|Hlen].
  - rewrite bool_decide_eq_true_2 by done. simpl.
    destruct (list.last timestamps) as [b|] eqn:Hb.
    2: { apply last_None in Hb. subst. simpl in Hlen. lia. }
    apply last_Some in Hb as [l' ->].
    rewrite length_app in *. simpl in *.
    replace (length l' + 1 - 1) with (length l') by lia.
    rewrite take_app_length.
    destruct (list.last l') as [a|] eqn:Ha.
    2: { apply last_None in Ha. subst. simpl in Hlen. lia. }
    apply last_Some in Ha as [front ->].
    destruct (eqb b a) eqn:E.
    + left. split; [|split; [lia|done]].
      exists front, a, b. by rewrite <- app_assoc.
    + right. split; [|done]. intros (front' & a' & b' & Heq & E').
      rewrite <- app_assoc in Heq. simpl in Heq.
      assert (front ++ [a; b] = front' ++ [a'; b']) as Heq' by done.
      apply (f_equal reverse) in Heq'.
      rewrite !reverse_app in Heq'. simpl in Heq'.
      injection Heq' as -> -> _. congruence.
  - rewrite bool_decide_eq_false_2 by done. simpl. right. split; [|done].
    intros (front & a & b & -> & _). rewrite length_app in Hlen. simpl in Hlen.
    lia.
Qed.

(** X16: the constructor keeps one entry of the time selection per dump it
    keeps, and discards the last dump when its timestamp repeats the one
    before it; the indexer of a dataset that still holds that dump then
    selects with a mask of one entry per dump of the dataset, made of the
    time selection and of [False] for the discarded dump. *)
Theorem duplicate_final_dump_masked {D T} (eqb : T → T → bool) (len : D → nat)
    (self : H5DataV3.t D) (dataset : D) (extractor : LazyTransform)
    (timestamps : list T) :
  len dataset = length timestamps →
  length (time_keep self) = kept_dumps eqb timestamps →
  let mask := (keep (vislike_indexer len self dataset extractor)).1.1 in
  length mask = len dataset
  ∧ (final_dump_repeated eqb timestamps → mask = time_keep self ++ [false])
  ∧ (¬ final_dump_repeated eqb timestamps → mask = time_keep self).
Proof.
  intros Hlen Hkeep mask. subst mask. unfold vislike_indexer. simpl.
  rewrite Hlen, Hkeep.
  destruct (kept_dumps_cases eqb timestamps) as [(Hrep & Hn & ->)|(Hrep & ->)].
  - rewrite decide_True by done.
    replace (length timestamps - (length timestamps - 1)) with 1 by lia.
    simpl. split; [|split; [done|done]].
    rewrite length_app, Hkeep. simpl.
    destruct (kept_dumps_cases eqb timestamps) as [(_ & _ & ->)|(? & _)];
      [lia|done].
  - destruct (decide (length timestamps = length timestamps - 1)) as [He|He].
    + assert (length timestamps = 0) as Hz by lia. rewrite Hz. simpl.
      rewrite app_nil_r. split; [|split; [done|done]].
      rewrite Hkeep.
      destruct (kept_dumps_cases eqb timestamps) as [(? & _)|(_ & ->)]; done.
    + split; [|split; [done|done]]. rewrite Hkeep.
      destruct (kept_dumps_cases eqb timestamps) as [(? & _)|(_ & ->)]; done.
Qed.

(** With one axis of the data for every entry of the selection that is not
    a scalar, every entry finds its axis. *)
Lemma restore_axes_exact es sh :
  length sh = length (filter (λ e, e = false) es) →
  ∃ sh', restore_axes es sh = Some sh' ∧ length sh' = length es.
Proof.
  revert sh. induction es as [|[] es IH]; intros sh Hsh; simpl.
  - destruct sh; [by exists [] | done].
  - rewrite filter_cons_False in Hsh by done.
    destruct (IH sh Hsh) as (sh' & -> & Hlen). exists (1 :: sh'). simpl.
    split; [done | by f_equal].
  - rewrite filter_cons_True in Hsh by done.
    destruct sh as [|n sh]; [done|]. simpl in Hsh.
    destruct (IH sh) as (sh' & -> & Hlen); [lia|]. exists (n :: sh'). simpl.
    split; [done | by f_equal].
Qed.

(** X17: applied to data that has one axis for every one of the first three
    entries of the selection that is not a scalar (the entries that are left
    out count as slices), [_force_3dim] gives the same elements with exactly
    three axes. *)
Theorem force_3dim_three_axes (d : ndarray) (k : list dim_keep) :
  length (shape d)
  = length (filter (λ e, isscalar e = false) (take 3 k)) + (3 - length k) →
  ∃ r, force_3dim d k = Ok r
       ∧ length (shape r) = 3
       ∧ data r = data d
       ∧ dtype_of r = dtype_of d.
Proof.
  intros Hd. unfold force_3dim.
  set (es := isscalar <$> take 3 k ++ replicate (3 - length k) (KeepSlice None)).
  assert (Hes : length es = 3).
  { subst es. rewrite length_fmap, length_app, length_take, length_replicate. lia. }
  assert (Hcount : length (filter (λ e, e = false) es) = length (shape d)).
  { subst es. rewrite Hd, fmap_app, filter_app, length_app.
    by rewrite count_non_scalars, count_slices. }
  destruct (restore_axes_exact es (shape d)) as (sh' & -> & Hlen); [done|].
  eexists. repeat split. simpl. congruence.
Qed.

Lemma rotate_Permutation {A} (l l' : list A) : rotate l = Some l' → l' ≡ₚ l.
Proof.
  destruct l as [|x l]; [done|]. intros [= <-].
  by rewrite Permutation_app_comm.
Qed.


(** X19: the constructor gives up on the correlation products with
    [BrokenFile] exactly when neither the labels of the file nor the ones of
    them whose two inputs are of antennas in use number the baselines of the
    visibilities; rotating the labels of a file without any label is an
    [IndexError]. *)
Theorem settle_corrprods_fails corrprods rotate_bls n_bls obs_ants :
  ((∃ msg, settle_corrprods corrprods rotate_bls n_bls obs_ants
           = inr (BrokenFile msg))
   ↔ (rotate_bls = false ∨ corrprods ≠ [])
     ∧ length corrprods ≠ n_bls
     ∧ length (filter (λ cp, in_use obs_ants cp = true) corrprods) ≠ n_bls)
  ∧ (settle_corrprods corrprods rotate_bls n_bls obs_ants = inr PyIndexError
     ↔ rotate_bls = true ∧ corrprods = []).
Proof.
  unfold settle_corrprods.
  destruct (if rotate_bls then rotate corrprods else Some corrprods)
    as [rot|] eqn:Hrot.
  - assert (Hperm : rot ≡ₚ corrprods).
    { destruct rotate_bls; [by apply rotate_Permutation | by simplify_eq]. }
    assert (Hnon : rotate_bls = false ∨ corrprods ≠ []).
    { destruct rotate_bls; [|by left]. right. by intros ->. }
    assert (Hf : length (filter (λ cp, in_use obs_ants cp = true) rot)
                 = length (filter (λ cp, in_use obs_ants cp = true) corrprods))
      by by rewrite Hperm.
    rewrite Hf. rewrite (Permutation_length Hperm).
    split.
    + destruct (decide (length corrprods ≠ n_bls)) as [Hl|Hl].
      * destruct (decide (length (filter (λ cp, in_use obs_ants cp = true)
                                    corrprods) ≠ n_bls)) as [Hm|Hm].
        -- split; [done|]. intros _. by eexists.
        -- split; [by intros [? ?]|]. by intros (_ & _ & ?).
      * split; [by intros [? ?]|]. by intros (_ & ? & _).
    + split; [by repeat case_decide|].
      intros [-> ->]. by destruct Hnon.
  - destruct rotate_bls; [|done]. destruct corrprods; [|done].
    split; split; try done.
    + by intros [? ?].
    + intros ([?|?] & _); done.
Qed.

End InitFacts.

(** ** Weather sensors *)

Section WeatherFacts.
Context `{Wording} {V : Type}.
Import SensorCache.

(** X20: each weather property of the data set returns the value of its
    sensor of the weather station whenever that sensor resolves, whatever
    the telescope state holds; the wind speed falls back on the wind speed
    of the weather station before that of the telescope state. *)
Theorem weather_prefers_enviro (sensor : SensorCache.t V) v :
  (resolve sensor "Enviro/air_temperature" = Some v →
   H5DataV3.temperature sensor = Ok v)
  ∧ (resolve sensor "Enviro/air_pressure" = Some v →
     H5DataV3.pressure sensor = Ok v)
  ∧ (resolve sensor "Enviro/air_relative_humidity" = Some v →
     H5DataV3.humidity sensor = Ok v)
  ∧ (resolve sensor "Enviro/mean_wind_speed" = Some v →
     H5DataV3.wind_speed sensor = Ok v)
  ∧ (resolve sensor "Enviro/mean_wind_speed" = None →
     resolve sensor "Enviro/wind_speed" = Some v →
     H5DataV3.wind_speed sensor = Ok v).
Proof.
  unfold H5DataV3.temperature, H5DataV3.pressure, H5DataV3.humidity,
    H5DataV3.wind_speed, get_with_fallback. simpl. unfold get.
  repeat split; intros; by repeat (case_match; simplify_eq).
Qed.

End WeatherFacts.

(** ** More on the in-memory chunk store *)

Section DictChunkStoreMore.
Context `{Scalars} `{Wording}.
Import Numpy ChunkStore DictChunkStore.

Lemma get_other_dtype self a l r dt :
  valid_request self a l r → dtype_of (heap self l) ≠ dt →
  get self a r dt
  = Raise (StoreError BadChunk
             ("Chunk " +:+ repr_chunk (a, r) +:+ ": requested dtype "
              +:+ dtype_name dt +:+ " differs from actual dtype "
              +:+ dtype_name (dtype_of (heap self l)))).
Proof.
  intros Hv Hdt. unfold get. rewrite (chunk_metadata_read _ _ _ _ _ Hv).
  destruct Hv as (Ha & Hu & Hb). simpl.
  unfold lookup_array. rewrite Ha. simpl. unfold getitem.
  destruct (windows_in_bounds _ _ Hb) as (-> & _ & _). simpl.
  by rewrite decide_True by (by intros ->).
Qed.

(** A [get] that succeeds had a valid request for the stored dtype, and
    returns the view on the windows the ranges name. *)
Lemma get_Ok_inv self a r dt v :
  get self a r dt = Ok v →
  ∃ l, valid_request self a l r
       ∧ dt = dtype_of (heap self l)
       ∧ v = View l (exact_window <$> r).
Proof.
  intros Hg.
  destruct (chunk_metadata (declared_shape self a) a r (Some dt) None)
    as [res|e] eqn:Hm.
  2: { unfold get in Hg. by rewrite Hm in Hg. }
  apply chunk_metadata_Ok in Hm as (Hu & Hb & _ & _).
  destruct (arrays self !! a) as [l|] eqn:Ha.
  - assert (Hv : valid_request self a l r).
    { repeat split; [done..|]. apply Hb. by apply declared_shape_known. }
    exists l. split; [done|].
    destruct (decide (dtype_of (heap self l) = dt)) as [<-|Hne].
    + rewrite (get_valid _ _ _ _ Hv) in Hg. by simplify_eq.
    + by rewrite (get_other_dtype _ _ _ _ _ Hv Hne) in Hg.
  - unfold get in Hg.
    destruct (chunk_metadata (declared_shape self a) a r (Some dt) None)
      as [[name sh]|e]; [|done].
    simpl in Hg. unfold lookup_array in Hg. rewrite Ha in Hg. simpl in Hg.
    by destruct (lookup_error (error_map self) KeyError).
Qed.

Lemma well_formed_written self l r x l' :
  (∀ l, well_formed (heap self l)) →
  window_fits (shape (heap self l)) (exact_window <$> r) →
  length (data x) = size (window_shape (exact_window <$> r)) →
  well_formed (heap (written self l r x) l').
Proof.
  intros Hheap Hfit Hlen. destruct (decide (l = l')) as [<-|Hne].
  - rewrite heap_written_eq. unfold well_formed. simpl.
    apply length_put_window; [done|apply Hheap|done].
  - rewrite heap_written_ne by done. apply Hheap.
Qed.

(** The shape of a chunk that fits the ranges of a valid request. *)
Lemma chunk_fits self a l r x :
  valid_request self a l r → well_formed x →
  shape_as_Z (shape x) = implied_shape r →
  window_fits (shape (heap self l)) (exact_window <$> r)
  ∧ length (data x) = size (window_shape (exact_window <$> r)).
Proof.
  intros (Ha & Hu & Hb) Hx Hsh.
  destruct (windows_in_bounds _ _ Hb) as (_ & Hfit & Hws).
  rewrite <- Hsh in Hws. apply shape_as_Z_inj in Hws.
  split; [done|]. by rewrite Hws.
Qed.

(** X21: whatever a [put] does, it leaves every array of the store with as
    many elements as its shape asks for. *)
Theorem put_keeps_well_formed self a r x :
  (∀ l, well_formed (heap self l)) →
  well_formed x →
  ∀ l, well_formed (heap (put self a r x).1 l).
Proof.
  intros Hheap Hx l.
  destruct (put self a r x) as [self' [[]|e]] eqn:Hput; simpl.
  - destruct (put_Ok_inv _ _ _ _ _ Hput) as (l0 & Hv & Hsh & Hdt).
    rewrite (put_valid _ _ _ _ _ Hv Hx Hsh Hdt) in Hput.
    injection Hput as <-.
    destruct (chunk_fits _ _ _ _ _ Hv Hx Hsh) as [Hfit Hlen].
    by apply well_formed_written.
  - apply put_Raise in Hput as ->. apply Hheap.
Qed.

(** X22: [put] never converts: a chunk of the right shape for a valid
    request whose dtype is not the dtype of the stored array is refused with
    the [BadChunk] of [get] that names both dtypes, and the store stays as
    it is. *)
Theorem put_other_dtype self a l r x :
  valid_request self a l r →
  shape_as_Z (shape x) = implied_shape r →
  dtype_of x ≠ dtype_of (heap self l) →
  put self a r x
  = (self, Raise (StoreError BadChunk
                    ("Chunk " +:+ repr_chunk (a, r) +:+ ": requested dtype "
                     +:+ dtype_name (dtype_of x) +:+ " differs from actual dtype "
                     +:+ dtype_name (dtype_of (heap self l))))).
Proof.
  intros Hv Hsh Hdt. unfold put.
  rewrite (chunk_metadata_write _ _ _ _ _ Hv Hsh).
  by rewrite (get_other_dtype _ _ _ _ _ Hv) by done.
Qed.

(** X23: on a store built by the constructor, [get] for an array name that
    the store does not know fails with [ChunkNotFound] when the ranges have
    unit steps, whatever dtype is asked for. *)
Theorem get_unknown kwargs objects a r dt :
  kwargs !! a = None →
  forallb unit_step r = true →
  fails_with ChunkNotFound (get (init kwargs objects) a r dt).
Proof.
  intros Ha Hu. unfold get, chunk_metadata.
  rewrite declared_shape_unknown by done. rewrite Hu. simpl.
  unfold lookup_array. simpl. by rewrite Ha.
Qed.

(** X24: [get] returns a view, not a copy: the chunk that a [get] returned
    before a [put] to the same ranges shows the data of the [put]. *)
Theorem view_shows_later_put self a r dt v x self' :
  (∀ l, well_formed (heap self l)) →
  well_formed x →
  get self a r dt = Ok v →
  put self a r x = (self', Ok ()) →
  read self' v = x ∧ get self' a r dt = Ok v.
Proof.
  intros Hheap Hx Hget Hput.
  destruct (get_Ok_inv _ _ _ _ _ Hget) as (l & Hv & -> & ->).
  destruct (put_Ok_inv _ _ _ _ _ Hput) as (l' & Hv' & Hsh & Hdt).
  assert (l' = l) as -> by (destruct Hv as [? _], Hv' as [? _]; congruence).
  rewrite (put_valid _ _ _ _ _ Hv Hx Hsh Hdt) in Hput. injection Hput as <-.
  destruct (chunk_fits _ _ _ _ _ Hv Hx Hsh) as [Hfit Hlen].
  split.
  - unfold read. simpl base. rewrite heap_written_eq. simpl.
    rewrite take_put_window; [|done|apply Hheap|done].
    destruct Hv as (_ & _ & Hb).
    destruct (windows_in_bounds _ _ Hb) as (_ & _ & Hws).
    rewrite <- Hsh in Hws. apply shape_as_Z_inj in Hws.
    rewrite Hws, <- Hdt. by destruct x.
  - pose proof (valid_request_written self a l r l r x Hv) as Hvw.
    rewrite <- (get_valid _ _ _ _ Hvw). by rewrite heap_written_eq.
Qed.

End DictChunkStoreMore.

Section DictChunkStoreWrites.
Context `{Scalars} `{Wording}.
Import Numpy ChunkStore DictChunkStore.

Lemma zip_with_overwrite {A B} (f : A → B → A) (Q : A → Prop) (R : B → Prop)
    l xs ys :
  (∀ b x y, Q b → R x → R y → f (f b x) y = f b y) →
  length l = length xs → length xs = length ys →
  Forall Q l → Forall R xs → Forall R ys →
  zip_with f (zip_with f l xs) ys = zip_with f l ys.
Proof.
  intros Hf Hlx Hxy Hl. revert xs ys Hlx Hxy.
  induction Hl as [|b l Hb _ IH]; intros [|x xs] [|y ys] Hlx Hxy Hxs Hys;
    try done.
  inversion_clear Hxs as [|? ? Hx Hxs']. inversion_clear Hys as [|? ? Hy Hys'].
  simpl in *. f_equal; [by apply Hf|]. apply IH; [lia|lia|done|done].
Qed.

(** Writing a window twice leaves what the second write put there. *)
Lemma put_window_overwrite sh w (d x y : list elem) :
  window_fits sh w →
  length d = size sh →
  length x = size (window_shape w) → length y = size (window_shape w) →
  put_window sh w (put_window sh w d x) y = put_window sh w d y.
Proof.
  intros Hfit. revert d x y.
  induction Hfit as [|n [lo cnt] sh w Hn Hfit IH]; intros d x y Hd Hx Hy; [done|].
  simpl in *.
  destruct (put_window_blocks sh w n lo cnt d x
              (λ b x, length_put_window sh w b x Hfit) Hn Hd Hx) as [Hlen Hbl].
  rewrite rows_join by done.
  set (bs := rows n (size sh) d) in *.
  assert (Hbs : blocks_of (size sh) bs) by by apply rows_blocks.
  assert (Hnb : length bs = n) by apply length_rows.
  set (xs := rows cnt (size (window_shape w)) x) in *.
  set (ys := rows cnt (size (window_shape w)) y).
  assert (Hxs : length xs = cnt) by apply length_rows.
  assert (Hys : length ys = cnt) by apply length_rows.
  assert (Hsel : length (take cnt (drop lo bs)) = cnt)
    by (rewrite length_take, length_drop; lia).
  assert (Hz : length (zip_with (put_window sh w) (take cnt (drop lo bs)) xs) = cnt)
    by (rewrite length_zip_with; lia).
  f_equal. f_equal; [|f_equal].
  - rewrite take_app_length'; [done|]. rewrite length_take. lia.
  - rewrite drop_app_length' by (rewrite length_take; lia).
    rewrite take_app_length' by done.
    apply (zip_with_overwrite _ (λ b, length b = size sh)
             (λ x, length x = size (window_shape w))).
    + intros b u v Hb Hu Hv. by apply IH.
    + lia.
    + lia.
    + by apply blocks_of_take, blocks_of_drop.
    + by apply rows_blocks.
    + by apply rows_blocks.
  - rewrite app_assoc. rewrite drop_app_length'; [done|].
    rewrite length_app, length_take. lia.
Qed.

(** X25: the last write wins: after two chunks have been put to the same
    ranges of an array, one after the other, the store holds what a [put] of
    the second chunk alone would have left. *)
Theorem put_twice_last_wins self a l r x y :
  (∀ l, well_formed (heap self l)) →
  valid_request self a l r →
  well_formed x → well_formed y →
  shape_as_Z (shape x) = implied_shape r →
  shape_as_Z (shape y) = implied_shape r →
  dtype_of x = dtype_of (heap self l) →
  dtype_of y = dtype_of (heap self l) →
  ∃ s1 s12 s2,
    put self a r x = (s1, Ok ())
    ∧ put s1 a r y = (s12, Ok ())
    ∧ put self a r y = (s2, Ok ())
    ∧ arrays s12 = arrays s2
    ∧ error_map s12 = error_map s2
    ∧ ∀ l', heap s12 l' = heap s2 l'.
Proof.
  intros Hheap Hv Hx Hy Hsx Hsy Hdx Hdy.
  destruct (chunk_fits _ _ _ _ _ Hv Hx Hsx) as [Hfit Hlx].
  destruct (chunk_fits _ _ _ _ _ Hv Hy Hsy) as [_ Hly].
  exists (written self l r x), (written (written self l r x) l r y),
    (written self l r y).
  split; [by apply put_valid|].
  split.
  { apply put_valid; [by apply valid_request_written|done..|].
    by rewrite heap_written_eq. }
  split; [by apply put_valid|].
  split; [done|]. split; [done|].
  intros l'. destruct (decide (l = l')) as [<-|Hne].
  - rewrite !heap_written_eq. simpl.
    by rewrite put_window_overwrite by (done || apply Hheap).
  - by rewrite !heap_written_ne.
Qed.


End DictChunkStoreWrites.

(** ** The further properties on concrete inputs *)

Section TelstateScenarios.
Import DataSources TelstateSource Examples MoreExamples.

(** The key of the capture block view is shortened by the second prefix. *)
Lemma shorten_key_suffix_witness :
  shorten_key (capture None) "1556_obs_activity" = "obs_activity"
  ∧ "obs_activity" ≠ EmptyString
  ∧ ∃ before prefix after,
      prefixes (capture None) = before ++ prefix :: after
      ∧ Forall (λ p, startswith "1556_obs_activity" p = false) before
      ∧ "1556_obs_activity" = prefix +:+ "obs_activity".
Proof.
  assert (Hs : shorten_key (capture None) "1556_obs_activity" = "obs_activity")
    by reflexivity.
  assert (Hn : "obs_activity" ≠ EmptyString) by discriminate.
  repeat (split; [assumption|]).
  exact (shorten_key_suffix (capture None) _ _ Hs Hn).
Defined.

(** A key outside the views, and a key that is a prefix itself. *)
Lemma shorten_key_empty_witness :
  Forall (λ p, startswith "m063_azim" p = false) (prefixes (capture None))
  ∧ prefixes (capture None) = ["1556_sdp_l0_"] ++ "1556_" :: ["sdp_l0_"]
  ∧ Forall (λ p, startswith "1556_" p = false) ["1556_sdp_l0_"]
  ∧ shorten_key (capture None) "m063_azim" = EmptyString
  ∧ shorten_key (capture None) "1556_" = EmptyString.
Proof.
  assert (Ha : Forall (λ p, startswith "m063_azim" p = false)
                 (prefixes (capture None)))
    by (repeat constructor).
  assert (Hp : prefixes (capture None) = ["1556_sdp_l0_"] ++ "1556_" :: ["sdp_l0_"])
    by reflexivity.
  assert (Hb : Forall (λ p, startswith "1556_" p = false) ["1556_sdp_l0_"])
    by (repeat constructor).
  repeat (split; [assumption|]).
  split.
  - exact (proj1 (shorten_key_empty (capture None) "m063_azim") Ha).
  - exact (proj2 (shorten_key_empty (capture None) "1556_") _ _ Hp Hb).
Defined.

(** Two keys shorten to "obs_activity": the sensor is the later one. *)
Lemma collect_sensors_spec_witness :
  let ts := capture None in
  collect_sensors ts !! "obs_activity" = Some "sdp_l0_obs_activity"
  ∧ "1556_obs_activity" ∈ keys ts
  ∧ is_immutable ts "1556_obs_activity" = false
  ∧ shorten_key ts "1556_obs_activity" = "obs_activity"
  ∧ "obs_activity" ≠ EmptyString
  ∧ ("obs_activity" ≠ EmptyString
     ∧ "sdp_l0_obs_activity" ∈ keys ts
     ∧ is_immutable ts "sdp_l0_obs_activity" = false
     ∧ shorten_key ts "sdp_l0_obs_activity" = "obs_activity")
  ∧ is_Some (collect_sensors ts !! "obs_activity").
Proof.
  intros ts.
  assert (Hc : collect_sensors ts !! "obs_activity" = Some "sdp_l0_obs_activity")
    by (vm_compute; reflexivity).
  assert (Hk : "1556_obs_activity" ∈ keys ts) by (repeat constructor).
  assert (Hi : is_immutable ts "1556_obs_activity" = false) by reflexivity.
  assert (Hs : shorten_key ts "1556_obs_activity" = "obs_activity") by reflexivity.
  assert (Hn : "obs_activity" ≠ EmptyString) by discriminate.
  repeat (split; [assumption|]).
  split.
  - exact (proj1 (proj2 (collect_sensors_spec ts "obs_activity")) _ Hc).
  - exact (proj2 (proj2 (collect_sensors_spec ts "obs_activity")) _ Hk Hi Hs Hn).
Defined.

(** A telescope state without chunk info. *)
Lemma TelstateDataSource_metadata_only_witness :
  chunk_info (capture None) = None
  ∧ ∃ ds,
      TelstateDataSource_init from_url (capture None) (Some tiled_store) "telstate"
      = Ok ds
      ∧ data ds = None
      ∧ timestamps ds = None
      ∧ sensors (metadata ds) = collect_sensors (capture None)
      ∧ DataSource_name ds = "telstate".
Proof.
  assert (Hc : chunk_info (capture None) = None) by reflexivity.
  split; [assumption|].
  exact (TelstateDataSource_metadata_only from_url (capture None)
           (Some tiled_store) "telstate"
           (or_intror (or_intror (or_intror (or_intror (or_introl Hc)))))).
Defined.

(** A telescope state that describes four dumps in a chunk store. *)
Lemma TelstateDataSource_with_data_witness :
  ∃ ds d,
    TelstateDataSource_init from_url (capture (Some tiled_info))
      (Some tiled_store) "telstate" = Ok ds
    ∧ data ds = Some d
    ∧ ∃ ci info cn stamps,
        chunk_info (capture (Some tiled_info)) = Some ci
        ∧ chunk_name (capture (Some tiled_info)) = Some cn
        ∧ ci !! "correlator_data" = Some info
        ∧ timestamps ds = Some stamps
        ∧ head (info_shape info) = Some (length stamps)
        ∧ same_shapes d
        ∧ DataSource_name ds
          = (if decide (cn ≠ "telstate") then "telstate" +:+ " | " +:+ cn
             else "telstate").
Proof.
  eexists _, _.
  split; [vm_compute; reflexivity|].
  split; [reflexivity|].
  eapply (TelstateDataSource_with_data from_url (capture (Some tiled_info))
            (Some tiled_store) "telstate"); vm_compute; reflexivity.
Defined.

(** A chunk info that describes no array. *)
Lemma TelstateDataSource_no_correlator_data_witness :
  let ts := capture (Some ∅) in
  is_Some (sync_time ts) ∧ is_Some (first_timestamp ts)
  ∧ is_Some (int_time ts) ∧ is_Some (chunk_name ts)
  ∧ (is_Some (Some tiled_store) ∨ is_Some (s3_endpoint_url ts))
  ∧ chunk_info ts = Some ∅
  ∧ (∅ : gmap string array_info) !! "correlator_data" = None
  ∧ TelstateDataSource_init from_url ts (Some tiled_store) "telstate"
    = Raise (Builtin KeyError (py_repr "correlator_data")).
Proof.
  intros ts.
  assert (H1 : is_Some (sync_time ts)) by (eexists; reflexivity).
  assert (H2 : is_Some (first_timestamp ts)) by (eexists; reflexivity).
  assert (H3 : is_Some (int_time ts)) by (eexists; reflexivity).
  assert (H4 : is_Some (chunk_name ts)) by (eexists; reflexivity).
  assert (H5 : is_Some (Some tiled_store) ∨ is_Some (s3_endpoint_url ts))
    by (left; eexists; reflexivity).
  assert (H6 : chunk_info ts = Some ∅) by reflexivity.
  assert (H7 : (∅ : gmap string array_info) !! "correlator_data" = None)
    by reflexivity.
  repeat (split; [assumption|]).
  exact (TelstateDataSource_no_correlator_data from_url ts (Some tiled_store)
           "telstate" ∅ H1 H2 H3 H4 H5 H6 H7).
Defined.

(** A chunk info without the weights, and one with the four arrays. *)
Lemma ChunkStoreVisFlagsWeights_needs_arrays_witness :
  ["correlator_data"; "flags"; "weights"; "weights_channel"]
  = ["correlator_data"; "flags"] ++ "weights" :: ["weights_channel"]
  ∧ Forall (λ k, is_Some (no_weights_info !! k)) ["correlator_data"; "flags"]
  ∧ no_weights_info !! "weights" = None
  ∧ ChunkStoreVisFlagsWeights_init tiled_store "obs" no_weights_info
    = Raise (Builtin KeyError (py_repr "weights"))
  ∧ ∃ obj,
      ChunkStoreVisFlagsWeights_init tiled_store "obs" tiled_info = Ok obj
      ∧ ∃ iv ifl,
          tiled_info !! "correlator_data" = Some iv
          ∧ tiled_info !! "flags" = Some ifl
          ∧ is_Some (tiled_info !! "weights")
          ∧ is_Some (tiled_info !! "weights_channel")
          ∧ vis obj = stored_array tiled_store "obs" "correlator_data" iv
          ∧ flags obj = stored_array tiled_store "obs" "flags" ifl
          ∧ name obj = "obs".
Proof.
  assert (Hs : ["correlator_data"; "flags"; "weights"; "weights_channel"]
               = ["correlator_data"; "flags"] ++ "weights" :: ["weights_channel"])
    by reflexivity.
  assert (Hb : Forall (λ k, is_Some (no_weights_info !! k))
                 ["correlator_data"; "flags"])
    by (repeat constructor; eexists; vm_compute; reflexivity).
  assert (Hw : no_weights_info !! "weights" = None) by (vm_compute; reflexivity).
  repeat (split; [assumption|]).
  split.
  - exact (proj1 (ChunkStoreVisFlagsWeights_needs_arrays tiled_store "obs"
                    no_weights_info) _ _ _ Hs Hb Hw).
  - eexists. split; [vm_compute; reflexivity|].
    apply (proj2 (ChunkStoreVisFlagsWeights_needs_arrays tiled_store "obs"
                    tiled_info)).
    vm_compute; reflexivity.
Defined.

End TelstateScenarios.

Section SelectionScenarios.
Import Numpy LazyIndexer H5DataV3 H5Select H5Init Examples MoreExamples.

(** The weight types "precision" and "snr", as a string and as a list. *)
Lemma set_weights_keep_string_witness :
  ["precision"; "snr"] ≠ []
  ∧ Forall (λ n, has_char ","%char n = false) ["precision"; "snr"]
  ∧ String.concat "," ["precision"; "snr"] ≠ "all"
  ∧ set_weights_keep one_type (NamesStr (String.concat "," ["precision"; "snr"]))
    = set_weights_keep one_type (NamesSeq ["precision"; "snr"]).
Proof.
  assert (Hn : ["precision"; "snr"] ≠ []) by discriminate.
  assert (Hc : Forall (λ n, has_char ","%char n = false) ["precision"; "snr"])
    by (repeat constructor).
  assert (Ha : String.concat "," ["precision"; "snr"] ≠ "all") by discriminate.
  repeat (split; [assumption|]).
  exact (set_weights_keep_string one_type ["precision"; "snr"] Hn Hc Ha).
Defined.

(** A file without a table of weight descriptions. *)
Lemma init_weights_selects_all_witness :
  (None : option (list (string * string))) ≠ Some []
  ∧ (init_weights stored_weights None [true; true] [true] [true] false).2 = []
  ∧ get_weights_keep one_type = Ok ["precision"]
  ∧ LazyIndexer.getitem read_all (weights dumps one_type) everything
    = Ok (Ndarray float32 [2; 1; 1] [5; 7]%Z).
Proof.
  assert (Hd : (None : option (list (string * string))) ≠ Some [])
    by discriminate.
  split; [assumption|].
  destruct (init_weights_selects_all dumps read_all stored_weights None
              [true; true] [true] [true] false everything Hd)
    as (Hlog & Hkeep & Hget).
  split; [exact Hlog|]. split.
  - unfold one_type. rewrite Hkeep. reflexivity.
  - unfold one_type. rewrite Hget. reflexivity.
Defined.

(** The flags "cam" and "data_lost" of eight. *)
Lemma unpack_pack_bits_witness :
  let bits := [false; false; true; true; false; false; false; false] in
  length bits = 8
  ∧ flipud (unpackbits (packbits (flipud bits))) = bits
  ∧ (0 ≤ packbits (flipud bits) < 256)%Z
  ∧ ∀ i, i < 8 →
      Z.testbit (packbits (flipud bits)) (Z.of_nat i) = default false (bits !! i).
Proof.
  intros bits.
  assert (Hl : length bits = 8) by reflexivity.
  split; [assumption|].
  exact (unpack_pack_bits bits Hl).
Defined.

Lemma get_set_flags_keep_witness :
  let rows := zip FLAG_NAMES FLAG_DESCRIPTIONS in
  flags_description default_flags = Some rows
  ∧ length (fst <$> rows) = 8
  ∧ NoDup (fst <$> rows)
  ∧ ∃ self' log,
      set_flags_keep default_flags cam_and_lost = Some (self', log)
      ∧ get_flags_keep self'
        = Some (filter (λ n, n ∈ requested (fst <$> rows) cam_and_lost)
                       (fst <$> rows)).
Proof.
  intros rows.
  assert (Hr : flags_description default_flags = Some rows) by reflexivity.
  assert (Hl : length (fst <$> rows) = 8) by reflexivity.
  assert (Hn : NoDup (fst <$> rows)) by (apply (bool_decide_unpack _); exact I).
  repeat (split; [assumption|]).
  exact (get_set_flags_keep default_flags rows cam_and_lost Hr Hl Hn).
Defined.

(** A sample with the bit of "cam" (bit 2) set. *)
Lemma flagged_iff_selected_bit_witness :
  let rows := zip FLAG_NAMES FLAG_DESCRIPTIONS in
  flags_description default_flags = Some rows
  ∧ length (fst <$> rows) = 8
  ∧ NoDup (fst <$> rows)
  ∧ ∃ self' log,
      set_flags_keep default_flags cam_and_lost = Some (self', log)
      ∧ (flag_set self' 4 = true ↔
         ∃ i n, (fst <$> rows) !! i = Some n
                ∧ n ∈ requested (fst <$> rows) cam_and_lost
                ∧ Z.testbit 4 (Z.of_nat i) = true).
Proof.
  intros rows.
  assert (Hr : flags_description default_flags = Some rows) by reflexivity.
  assert (Hl : length (fst <$> rows) = 8) by reflexivity.
  assert (Hn : NoDup (fst <$> rows)) by (apply (bool_decide_unpack _); exact I).
  repeat (split; [assumption|]).
  exact (flagged_iff_selected_bit default_flags rows cam_and_lost 4 Hr Hl Hn).
Defined.

(** A file with the default table written out. *)
Lemma init_flags_selects_all_witness :
  let table := zip FLAG_NAMES FLAG_DESCRIPTIONS in
  (∀ rows, Some table = Some rows →
     length (fst <$> rows) = 8 ∧ NoDup (fst <$> rows))
  ∧ ∃ self,
      init_flags (Some table) = Some (self, [])
      ∧ flags_select self = 255%Z
      ∧ ∀ byte, (0 ≤ byte < 256)%Z → flag_set self byte = negb (byte =? 0)%Z.
Proof.
  intros table.
  assert (Ht : ∀ rows, Some table = Some rows →
                 length (fst <$> rows) = 8 ∧ NoDup (fst <$> rows)).
  { intros rows [= <-]. split; [reflexivity|].
    apply (bool_decide_unpack _). exact I. }
  split; [assumption|].
  exact (init_flags_selects_all (Some table) Ht).
Defined.

(** Four dumps of which the last repeats the third. *)
Lemma duplicate_final_dump_masked_witness :
  dumps four_dumps = length stamps
  ∧ length (time_keep three_kept) = kept_dumps Z.eqb stamps
  ∧ final_dump_repeated Z.eqb stamps
  ∧ length (keep (vislike_indexer dumps three_kept four_dumps as_is)).1.1
    = dumps four_dumps
  ∧ (keep (vislike_indexer dumps three_kept four_dumps as_is)).1.1
    = time_keep three_kept ++ [false].
Proof.
  assert (Hl : dumps four_dumps = length stamps) by reflexivity.
  assert (Hk : length (time_keep three_kept) = kept_dumps Z.eqb stamps)
    by reflexivity.
  assert (Hr : final_dump_repeated Z.eqb stamps)
    by (exists [10; 20]%Z, 30%Z, 30%Z; split; reflexivity).
  do 3 (split; [assumption|]).
  destruct (duplicate_final_dump_masked Z.eqb dumps three_kept four_dumps as_is
              stamps Hl Hk) as (Hlen & Hrep & _).
  split; [exact Hlen | exact (Hrep Hr)].
Defined.

(** The first dump, read with an index for the time axis. *)
Lemma force_3dim_three_axes_witness :
  length (shape one_dump)
  = length (filter (λ e, isscalar e = false) (take 3 first_dump))
    + (3 - length first_dump)
  ∧ ∃ r, force_3dim one_dump first_dump = Ok r
         ∧ length (shape r) = 3
         ∧ data r = data one_dump
         ∧ dtype_of r = dtype_of one_dump.
Proof.
  assert (Hs : length (shape one_dump)
               = length (filter (λ e, isscalar e = false) (take 3 first_dump))
                 + (3 - length first_dump)) by reflexivity.
  split; [assumption|].
  exact (force_3dim_three_axes one_dump first_dump Hs).
Defined.


(** Four labels for two baselines, and no label at all to rotate. *)
Lemma settle_corrprods_fails_witness :
  (false = false ∨ bls_ordering ≠ [])
  ∧ length bls_ordering ≠ 2
  ∧ length (filter (λ cp, in_use two_ants cp = true) bls_ordering) ≠ 2
  ∧ (∃ msg, settle_corrprods bls_ordering false 2 two_ants = inr (BrokenFile msg))
  ∧ settle_corrprods [] true 0 two_ants = inr PyIndexError.
Proof.
  assert (H1 : false = false ∨ bls_ordering ≠ []) by (left; reflexivity).
  assert (H2 : length bls_ordering ≠ 2) by (vm_compute; lia).
  assert (H3 : length (filter (λ cp, in_use two_ants cp = true) bls_ordering) ≠ 2)
    by (vm_compute; lia).
  repeat (split; [assumption|]).
  split.
  - exact (proj2 (proj1 (settle_corrprods_fails bls_ordering false 2 two_ants))
             (conj H1 (conj H2 H3))).
  - exact (proj2 (proj2 (settle_corrprods_fails [] true 0 two_ants))
             (conj eq_refl eq_refl)).
Defined.

(** The temperature of the weather station. *)
Lemma weather_prefers_enviro_witness :
  SensorCache.resolve weather_station "Enviro/air_temperature" = Some 21%Z
  ∧ temperature weather_station = Ok 21%Z.
Proof.
  assert (Hr : SensorCache.resolve weather_station "Enviro/air_temperature"
               = Some 21%Z) by reflexivity.
  split; [assumption|].
  exact (proj1 (weather_prefers_enviro weather_station 21%Z) Hr).
Defined.

End SelectionScenarios.

Section StoreScenarios.
Import Numpy ChunkStore DictChunkStore Examples MoreExamples.

Lemma put_keeps_well_formed_witness :
  (∀ l, well_formed (heap vis_store l))
  ∧ well_formed new_block
  ∧ ∀ l, well_formed (heap (put vis_store "vis" block new_block).1 l).
Proof.
  assert (Hh : ∀ l, well_formed (heap vis_store l)) by (intros l; reflexivity).
  assert (Hx : well_formed new_block) by reflexivity.
  repeat (split; [assumption|]).
  exact (put_keeps_well_formed vis_store "vis" block new_block Hh Hx).
Defined.

(** A float32 chunk for the complex64 array "vis". *)
Lemma put_other_dtype_witness :
  valid_request vis_store "vis" 0 block
  ∧ shape_as_Z (shape float_block) = implied_shape block
  ∧ dtype_of float_block ≠ dtype_of (heap vis_store 0)
  ∧ put vis_store "vis" block float_block
    = (vis_store,
       Raise (StoreError BadChunk
                ("Chunk " +:+ repr_chunk ("vis", block) +:+ ": requested dtype "
                 +:+ dtype_name (dtype_of float_block)
                 +:+ " differs from actual dtype "
                 +:+ dtype_name (dtype_of (heap vis_store 0))))).
Proof.
  assert (Hv : valid_request vis_store "vis" 0 block)
    by (repeat split; vm_compute; reflexivity).
  assert (Hs : shape_as_Z (shape float_block) = implied_shape block) by reflexivity.
  assert (Hd : dtype_of float_block ≠ dtype_of (heap vis_store 0)) by discriminate.
  repeat (split; [assumption|]).
  exact (put_other_dtype vis_store "vis" 0 block float_block Hv Hs Hd).
Defined.

(** The store of "vis" is asked for "flags". *)
Lemma get_unknown_witness :
  ({["vis" := 0]} : gmap string loc) !! "flags" = None
  ∧ forallb unit_step block = true
  ∧ fails_with ChunkNotFound
      (get (init {["vis" := 0]} (λ _, vis_ref)) "flags" block uint8).
Proof.
  assert (Hn : ({["vis" := 0]} : gmap string loc) !! "flags" = None)
    by (vm_compute; reflexivity).
  assert (Hu : forallb unit_step block = true) by reflexivity.
  repeat (split; [assumption|]).
  exact (get_unknown {["vis" := 0]} (λ _, vis_ref) "flags" block uint8 Hn Hu).
Defined.

(** The view of a block, read after the block has been overwritten. *)
Lemma view_shows_later_put_witness :
  let v := View 0 (exact_window <$> block) in
  let self' := written vis_store 0 block new_block in
  (∀ l, well_formed (heap vis_store l))
  ∧ well_formed new_block
  ∧ get vis_store "vis" block complex64 = Ok v
  ∧ put vis_store "vis" block new_block = (self', Ok ())
  ∧ read self' v = new_block
  ∧ get self' "vis" block complex64 = Ok v.
Proof.
  intros v self'.
  assert (Hh : ∀ l, well_formed (heap vis_store l)) by (intros l; reflexivity).
  assert (Hx : well_formed new_block) by reflexivity.
  assert (Hg : get vis_store "vis" block complex64 = Ok v) by reflexivity.
  assert (Hp : put vis_store "vis" block new_block = (self', Ok ()))
    by reflexivity.
  repeat (split; [assumption|]).
  exact (view_shows_later_put vis_store "vis" block complex64 v new_block self'
           Hh Hx Hg Hp).
Defined.

(** Two chunks put to the same block of "vis". *)
Lemma put_twice_last_wins_witness :
  (∀ l, well_formed (heap vis_store l))
  ∧ valid_request vis_store "vis" 0 block
  ∧ well_formed new_block ∧ well_formed newer_block
  ∧ shape_as_Z (shape new_block) = implied_shape block
  ∧ shape_as_Z (shape newer_block) = implied_shape block
  ∧ dtype_of new_block = dtype_of (heap vis_store 0)
  ∧ dtype_of newer_block = dtype_of (heap vis_store 0)
  ∧ ∃ s1 s12 s2,
      put vis_store "vis" block new_block = (s1, Ok ())
      ∧ put s1 "vis" block newer_block = (s12, Ok ())
      ∧ put vis_store "vis" block newer_block = (s2, Ok ())
      ∧ arrays s12 = arrays s2
      ∧ error_map s12 = error_map s2
      ∧ ∀ l', heap s12 l' = heap s2 l'.
Proof.
  assert (Hh : ∀ l, well_formed (heap vis_store l)) by (intros l; reflexivity).
  assert (Hv : valid_request vis_store "vis" 0 block)
    by (repeat split; vm_compute; reflexivity).
  assert (Hx : well_formed new_block) by reflexivity.
  assert (Hy : well_formed newer_block) by reflexivity.
  assert (Hsx : shape_as_Z (shape new_block) = implied_shape block) by reflexivity.
  assert (Hsy : shape_as_Z (shape newer_block) = implied_shape block)
    by reflexivity.
  assert (Hdx : dtype_of new_block = dtype_of (heap vis_store 0)) by reflexivity.
  assert (Hdy : dtype_of newer_block = dtype_of (heap vis_store 0)) by reflexivity.
  repeat (split; [assumption|]).
  exact (put_twice_last_wins vis_store "vis" 0 block new_block newer_block
           Hh Hv Hx Hy Hsx Hsy Hdx Hdy).
Defined.


End StoreScenarios.
